(** * KrishiMitra: the farm orchestrator and its progress stream

    A shallow embedding of [backend/home/agents/farm_orchestrator.py]
    (class [FarmOrchestratorAgent]) and of the [SSEProgressTracker] of
    [backend/home/views.py], with the properties the specification states
    about them.

    Part I is the embedding: Python values and floats; the effect monad (an
    event trace with exceptions); the orchestrator's nodes and its LangGraph
    workflow; the keep-alive timer as an interleaving semantics; the SSE
    tracker.  Part II names what the theorems speak of.  Part III holds the
    theorems. *)

From Stdlib Require Import String Ascii List ZArith QArith Bool Arith Lia.
From Stdlib Require Import DecimalString.
Import ListNotations.
Open Scope string_scope.
Set Warnings "-register-all".

(** ** Python floats

    A binary64 float is a rational, an infinity or NaN.  Comparison, [min]
    and [max] do no rounding, so they are exact on this representation. *)

Inductive pyfloat : Type :=
| FNaN
| FInf (negative : bool)
| FFin (q : Q).

Definition Qltb (x y : Q) : bool :=
  (Qnum x * Zpos (Qden y) <? Qnum y * Zpos (Qden x))%Z.

(** [x < y] on floats: false as soon as one side is NaN. *)
Definition float_lt (x y : pyfloat) : bool :=
  match x, y with
  | FNaN, _ | _, FNaN => false
  | FInf true, FInf true => false
  | FInf true, _ => true
  | _, FInf true => false
  | FInf false, _ => false
  | _, FInf false => true
  | FFin a, FFin b => Qltb a b
  end.

(** [max(a, b)]: the first argument is kept unless the second is greater. *)
Definition py_max (a b : pyfloat) : pyfloat := if float_lt a b then b else a.

(** [min(a, b)]: the first argument is kept unless the second is smaller. *)
Definition py_min (a b : pyfloat) : pyfloat := if float_lt b a then b else a.

Definition float_0_0 : pyfloat := FFin 0.
Definition float_1_0 : pyfloat := FFin 1.
Definition float_0_5 : pyfloat := FFin (1 # 2).
(** The literals [0.6] and [0.7] denote the nearest binary64 values. *)
Definition float_0_6 : pyfloat := FFin (5404319552844595 # 9007199254740992).
Definition float_0_7 : pyfloat := FFin (3152519739159347 # 4503599627370496).

Definition is_nan (x : pyfloat) : bool :=
  match x with FNaN => true | _ => false end.

(** ** Python values

    What [json.loads] can return and what an agent can hand back.  A dict
    keeps insertion order; its keys are strings.  [POpaque] stands for any
    object [json.dumps] refuses (a datetime, a model instance, ...). *)

Inductive pyval : Type :=
| PNone
| PBool (b : bool)
| PInt (z : Z)
| PFloat (f : pyfloat)
| PStr (s : string)
| PList (items : list pyval)
| PDict (entries : list (string * pyval))
| POpaque (type_name : string).

Definition pydict : Type := list (string * pyval).

(** [key in d] *)
Fixpoint dict_mem (k : string) (d : pydict) : bool :=
  match d with
  | [] => false
  | (k', _) :: d' => if String.eqb k k' then true else dict_mem k d'
  end.

(** [d.get(key)] *)
Fixpoint dict_lookup (k : string) (d : pydict) : option pyval :=
  match d with
  | [] => None
  | (k', v) :: d' => if String.eqb k k' then Some v else dict_lookup k d'
  end.

(** [d[key] = v]: an existing key keeps its place, a new key goes last. *)
Fixpoint dict_set (k : string) (v : pyval) (d : pydict) : pydict :=
  match d with
  | [] => [(k, v)]
  | (k', v') :: d' =>
      if String.eqb k k' then (k, v) :: d' else (k', v') :: dict_set k v d'
  end.

Definition dict_keys (d : pydict) : list string := map fst d.

(** ** Exceptions and outcomes *)

Inductive outcome (A : Type) : Type :=
| Ok (a : A)
| Raise (msg : string).
Arguments Ok {A} a.
Arguments Raise {A} msg.

Definition obind {A B} (o : outcome A) (k : A -> outcome B) : outcome B :=
  match o with
  | Ok a => k a
  | Raise msg => Raise msg
  end.

(** [json.dumps(v)] succeeds unless [v] holds an object it cannot encode. *)
Fixpoint json_dumps_check (v : pyval) : outcome unit :=
  match v with
  | POpaque t =>
      Raise ("Object of type " ++ t ++ " is not JSON serializable")
  | PList items =>
      (fix go (l : list pyval) : outcome unit :=
         match l with
         | [] => Ok tt
         | x :: l' => obind (json_dumps_check x) (fun _ => go l')
         end) items
  | PDict entries =>
      (fix go (l : list (string * pyval)) : outcome unit :=
         match l with
         | [] => Ok tt
         | (_, x) :: l' => obind (json_dumps_check x) (fun _ => go l')
         end) entries
  | _ => Ok tt
  end.

(** [len(v)] *)
Definition py_len (v : pyval) : outcome nat :=
  match v with
  | PStr s => Ok (String.length s)
  | PList items => Ok (List.length items)
  | PDict entries => Ok (List.length entries)
  | _ => Raise "TypeError: object has no len()"
  end.

(** [v[0]] *)
Definition py_getitem0 (v : pyval) : outcome pyval :=
  match v with
  | PStr (String c _) => Ok (PStr (String c EmptyString))
  | PStr EmptyString => Raise "IndexError: string index out of range"
  | PList (x :: _) => Ok x
  | PList [] => Raise "IndexError: list index out of range"
  | PDict _ => Raise "KeyError: 0"
  | _ => Raise "TypeError: object is not subscriptable"
  end.

Fixpoint chars (s : string) : list pyval :=
  match s with
  | EmptyString => []
  | String c s' => PStr (String c EmptyString) :: chars s'
  end.

(** [for x in v]: list elements, string characters, dict keys. *)
Definition py_iter (v : pyval) : outcome (list pyval) :=
  match v with
  | PStr s => Ok (chars s)
  | PList items => Ok items
  | PDict entries => Ok (map (fun kv => PStr (fst kv)) entries)
  | _ => Raise "TypeError: object is not iterable"
  end.

(** Lists and dicts are unhashable: [x in some_dict] raises on them. *)
Definition py_hashable (v : pyval) : bool :=
  match v with
  | PList _ | PDict _ => false
  | _ => true
  end.

(** [if v:], the truth value of an object. *)
Definition py_truthy (v : pyval) : bool :=
  match v with
  | PNone => false
  | PBool b => b
  | PInt z => negb (z =? 0)%Z
  | PFloat (FFin q) => negb (Qeq_bool q 0)
  | PFloat _ => true
  | PStr s => negb (String.eqb s "")
  | PList items => negb (Nat.eqb (List.length items) 0)
  | PDict entries => negb (Nat.eqb (List.length entries) 0)
  | POpaque _ => true
  end.

Definition string_of_nat (n : nat) : string :=
  NilEmpty.string_of_uint (Nat.to_uint n).

(** [", ".join(parts)] *)
Fixpoint join (sep : string) (parts : list string) : string :=
  match parts with
  | [] => ""
  | [p] => p
  | p :: rest => p ++ sep ++ join sep rest
  end.

(** ** Effects: an event trace with exceptions

    Everything the orchestrator does to the outside world is recorded, in
    order, in a trace (nothing in the orchestrator reads it back): the progress callback, the calls of the language
    model, of the domain agents, of the notification agent and of the
    database, and the start and stop of the keep-alive timer. *)

(** The three prompt templates, by the values substituted into them. *)
Inductive prompt : Type :=
| ClassifyPrompt (query : string)
| DecisionPrompt (responses : pydict)
| VerifyPrompt (query response : string).

Inductive event : Type :=
| Progress (message event_type : string)
| GenerateContent (p : prompt)
| AgentProcess (agent query : string) (context : pyval)
| ProcessNotifications (final_response : string) (context : pyval)
| AgentQueryCreate (query : string) (agents_triggered : list string)
| KeepAliveStarted
| KeepAliveStopped.

Definition trace : Type := list event.

(** A computation yields its outcome and the events it emitted, in order.
    Events emitted before an exception stay emitted. *)
Definition M (A : Type) : Type := (outcome A * trace)%type.

Definition ret {A} (a : A) : M A := (Ok a, []).

Definition raise {A} (msg : string) : M A := (Raise msg, []).

Definition bind {A B} (m : M A) (k : A -> M B) : M B :=
  match m with
  | (Ok a, t) => let (r, t') := k a in (r, (t ++ t')%list)
  | (Raise msg, t) => (Raise msg, t)
  end.

Definition lift {A} (o : outcome A) : M A := (o, []).

Definition emit (e : event) : M unit := (Ok tt, [e]).

(** [try: m  except Exception as e: h(str(e))] *)
Definition try_catch {A} (m : M A) (h : string -> M A) : M A :=
  match m with
  | (Ok a, t) => (Ok a, t)
  | (Raise msg, t) => let (r, t') := h msg in (r, (t ++ t')%list)
  end.

(** [try: m  finally: f] *)
Definition try_finally {A} (m : M A) (f : M unit) : M A :=
  let (r, t) := m in
  match f with
  | (Ok _, t') => (r, (t ++ t')%list)
  | (Raise msg, t') => (Raise msg, (t ++ t')%list)
  end.

Declare Scope py_scope.
Delimit Scope py_scope with py.
Notation "x <- m ;; k" := (bind m (fun x => k))
  (at level 61, m at next level, right associativity) : py_scope.
Notation "m ;; k" := (bind m (fun _ => k))
  (at level 61, right associativity) : py_scope.
Open Scope py_scope.

(** ** What the orchestrator calls but does not define

    Python built-ins with a grammar of their own ([json.loads], [float] on a
    string or a huge int, [str.strip], [str.title], number formatting) and
    the collaborators: the language model, the domain agents, the
    notification agent and the database.  Each answers a call with a value
    or raises.  Within one run a collaborator is taken to answer the same
    call the same way (the specification treats the agents as pure
    functions; no prompt is issued twice in a run).  The progress callback
    and [print] are taken never to raise. *)

Record Externals : Type := {
  (** [self.model.generate_content(prompt).text] *)
  generate_content : prompt -> outcome string;
  json_loads : string -> outcome pyval;
  float_of_str : string -> outcome pyfloat;
  (** [float(n)] for an int beyond 2^53, where rounding or overflow occurs *)
  float_of_big_int : Z -> outcome pyfloat;
  str_strip : string -> string;
  str_title : string -> string;
  (** [f"{x:.1%}"] *)
  format_percent : pyfloat -> string;
  (** [str(v)] for a value that is not a string *)
  py_repr : pyval -> string;
  (** [XAgent().process(query, context)], by agent name *)
  agent_process : string -> string -> pyval -> outcome pyval;
  (** [NotificationAgent().process_notifications(text, context)] *)
  process_notifications : string -> pyval -> outcome unit;
  (** [User.objects.get(id=user_id)] finds a user *)
  user_exists : pyval -> outcome bool;
  (** [AgentQuery.objects.create(...)] *)
  agent_query_create : string -> list string -> outcome unit
}.

(** ** The session state *)

Record AgentState : Type := {
  user_query : string;
  user_context : pyval;
  intent_classification : pyval;
  confidence_score : pyfloat;
  agent_responses : pydict;
  final_response : string;
  require_human_feedback : bool;
  agents_to_run : pyval
}.

Definition set_intent_classification (v : pyval) (s : AgentState) :=
  {| user_query := user_query s; user_context := user_context s;
     intent_classification := v;
     confidence_score := confidence_score s;
     agent_responses := agent_responses s;
     final_response := final_response s;
     require_human_feedback := require_human_feedback s;
     agents_to_run := agents_to_run s |}.

Definition set_confidence_score (f : pyfloat) (s : AgentState) :=
  {| user_query := user_query s; user_context := user_context s;
     intent_classification := intent_classification s;
     confidence_score := f;
     agent_responses := agent_responses s;
     final_response := final_response s;
     require_human_feedback := require_human_feedback s;
     agents_to_run := agents_to_run s |}.

Definition set_agent_responses (d : pydict) (s : AgentState) :=
  {| user_query := user_query s; user_context := user_context s;
     intent_classification := intent_classification s;
     confidence_score := confidence_score s;
     agent_responses := d;
     final_response := final_response s;
     require_human_feedback := require_human_feedback s;
     agents_to_run := agents_to_run s |}.

Definition set_final_response (t : string) (s : AgentState) :=
  {| user_query := user_query s; user_context := user_context s;
     intent_classification := intent_classification s;
     confidence_score := confidence_score s;
     agent_responses := agent_responses s;
     final_response := t;
     require_human_feedback := require_human_feedback s;
     agents_to_run := agents_to_run s |}.

Definition set_require_human_feedback (b : bool) (s : AgentState) :=
  {| user_query := user_query s; user_context := user_context s;
     intent_classification := intent_classification s;
     confidence_score := confidence_score s;
     agent_responses := agent_responses s;
     final_response := final_response s;
     require_human_feedback := b;
     agents_to_run := agents_to_run s |}.

Definition set_agents_to_run (v : pyval) (s : AgentState) :=
  {| user_query := user_query s; user_context := user_context s;
     intent_classification := intent_classification s;
     confidence_score := confidence_score s;
     agent_responses := agent_responses s;
     final_response := final_response s;
     require_human_feedback := require_human_feedback s;
     agents_to_run := v |}.

(** ** The orchestrator: [FarmOrchestratorAgent] *)

Inductive agent : Type := Market | Satellite | Weather | Pest | Soil | Search.

Definition all_agents : list agent :=
  [Market; Satellite; Weather; Pest; Soil; Search].

(** The agent's key in [agent_map], in [agent_responses] and in the plan. *)
Definition agent_key (a : agent) : string :=
  match a with
  | Market => "market"
  | Satellite => "satellite"
  | Weather => "weather"
  | Pest => "pest"
  | Soil => "soil"
  | Search => "search"
  end.

(** The closed set of agent names: the keys of [agent_map]. *)
Definition agent_of_key (k : string) : option agent :=
  find (fun a => String.eqb k (agent_key a)) all_agents.

(** [name in agent_map] *)
Definition known_agent (k : string) : bool :=
  match agent_of_key k with
  | Some _ => true
  | None => false
  end.

(** The display-name table ([agent_names], [agent_display_name]). *)
Definition agent_display (a : agent) : string :=
  match a with
  | Market => "Market Analysis"
  | Satellite => "Satellite Imagery"
  | Weather => "Weather Forecast"
  | Pest => "Pest Management"
  | Soil => "Soil Analysis"
  | Search => "Web Search"
  end.

Definition agent_start_message (a : agent) : string :=
  match a with
  | Market => "📊 Fetching latest market data and price trends..."
  | Satellite => "🛰️ Analyzing satellite imagery and crop health data..."
  | Weather => "🌤️ Gathering weather forecasts and climate conditions..."
  | Pest => "🐛 Analyzing pest risks and treatment recommendations..."
  | Soil => "🌱 Examining soil conditions and nutrient levels..."
  | Search =>
      "🔍 Searching the web for latest information and best practices..."
  end.

Definition agent_complete_message (a : agent) : string :=
  match a with
  | Market => "✅ Market analysis complete - Found current prices and trends"
  | Satellite => "✅ Satellite analysis complete - Processed field imagery"
  | Weather => "✅ Weather analysis complete - Got latest forecasts"
  | Pest => "✅ Pest analysis complete - Identified threats and solutions"
  | Soil => "✅ Soil analysis complete - Assessed health and nutrients"
  | Search => "✅ Web search complete - Found relevant resources and updates"
  end.

(** The name as the failure messages spell it. *)
Definition agent_title (a : agent) : string :=
  match a with
  | Market => "Market"
  | Satellite => "Satellite"
  | Weather => "Weather"
  | Pest => "Pest"
  | Soil => "Soil"
  | Search => "Search"
  end.

(** The ["data"] and ["recommendations"] of an agent's [error_response]. *)
Definition agent_error_data (a : agent) (query : string) : pyval :=
  match a with
  | Search =>
      PDict [("original_query", PStr query);
             ("optimized_query", PStr "");
             ("search_results", PList []);
             ("result_count", PInt 0);
             ("search_answer", PStr "");
             ("sources", PList [])]
  | _ => PDict []
  end.

Definition agent_error_recommendation (a : agent) : string :=
  match a with
  | Search => "Unable to perform web search due to error"
  | _ => "Unable to fetch " ++ agent_key a ++ " data due to error"
  end.

(** [isinstance(r, dict) and "error" in r]: the result is a failure. *)
Definition is_failure (r : pyval) : bool :=
  match r with
  | PDict entries => dict_mem "error" entries
  | _ => false
  end.


(** [d.get(key, default)]; only a dict has [get]. *)
Definition py_get (d : pyval) (k : string) (default : pyval) : outcome pyval :=
  match d with
  | PDict entries =>
      Ok (match dict_lookup k entries with Some v => v | None => default end)
  | _ => Raise "AttributeError: object has no attribute 'get'"
  end.

Definition the_final_apology : string :=
  "I apologize, but I couldn't gather the necessary information to answer your question. Please try again or rephrase your query.".

Definition the_decision_error_response : string :=
  "I encountered an error processing your request. Please try again.".

Section Orchestrator.

Context (X : Externals).

(** [self.progress_callback] is set (not [None]). *)
Context (progress_callback : bool).

(** [float(v)] *)
Definition py_float (v : pyval) : outcome pyfloat :=
  match v with
  | PFloat f => Ok f
  | PInt z =>
      if (Z.abs z <=? 2 ^ 53)%Z then Ok (FFin (inject_Z z))
      else float_of_big_int X z
  | PBool b => Ok (if b then float_1_0 else float_0_0)
  | PStr s => float_of_str X s
  | _ => Raise "TypeError: float() argument must be a string or a real number"
  end.

(** [str(v)] *)
Definition py_str (v : pyval) : string :=
  match v with
  | PStr s => s
  | _ => py_repr X v
  end.

Definition _send_progress (message event_type : string) : M unit :=
  if progress_callback then emit (Progress message event_type) else ret tt.

Definition model_generate_content (p : prompt) : M string :=
  emit (GenerateContent p);;
  lift (generate_content X p).

(** [names.get(agent, agent.title())] for every element of the plan: the
    default is evaluated first, and only a string has [title]. *)
Fixpoint display_names (items : list pyval) : outcome (list string) :=
  match items with
  | [] => Ok []
  | PStr name :: rest =>
      obind (display_names rest) (fun ds =>
        Ok (match agent_of_key name with
            | Some a => agent_display a
            | None => str_title X name
            end :: ds))
  | _ :: _ => Raise "AttributeError: object has no attribute 'title'"
  end.

Definition fallback_agents : pyval := PList [PStr "weather"; PStr "soil"].

Definition classify_intent (state : AgentState) : M AgentState :=
  let query := user_query state in
  _send_progress
    "🧠 Analyzing your query and determining which agents to activate..."
    "agent_start";;
  try_catch
    (text <- model_generate_content (ClassifyPrompt query);;
     result <- lift (json_loads X text);;
     agents_needed <- lift (py_get result "agents_needed" (PList []));;
     n <- lift (py_len agents_needed);;
     intent <- (if Nat.eqb n 1 then lift (py_getitem0 agents_needed)
                else ret (PStr "multiple"));;
     confidence <-
       lift (obind (py_get result "confidence" (PFloat float_0_5)) py_float);;
     items <- lift (py_iter agents_needed);;
     agents_display <- lift (display_names items);;
     _send_progress
       ("✅ Query analyzed! Activating: " ++ join ", " agents_display)
       "intent_classified";;
     ret (set_agent_responses []
           (set_confidence_score confidence
             (set_agents_to_run agents_needed
               (set_intent_classification intent state)))))
    (fun e =>
       _send_progress
         "⚠️ Using fallback classification due to analysis error" "warning";;
       ret (set_agent_responses []
             (set_confidence_score float_0_5
               (set_agents_to_run fallback_agents
                 (set_intent_classification (PStr "multiple") state))))).

Definition route_to_agents (state : AgentState) : string :=
  match intent_classification state with
  | PStr intent =>
      if existsb (String.eqb intent)
           ["market"; "satellite"; "weather"; "pest"; "soil"; "search"]
      then intent
      else "multiple"
  | _ => "multiple"
  end.

(** [state["agent_responses"][key] = v] *)
Definition set_response (k : string) (v : pyval) (s : AgentState) : AgentState :=
  set_agent_responses (dict_set k v (agent_responses s)) s.

Definition agent_error_response (a : agent) (query e : string) : pyval :=
  PDict [("error", PStr (agent_title a ++ " agent failed: " ++ e));
         ("data", agent_error_data a query);
         ("recommendations", PList [PStr (agent_error_recommendation a)])].

(** The six [run_<name>_agent] methods, which differ in their strings only. *)
Definition run_agent (a : agent) (state : AgentState) : M AgentState :=
  _send_progress (agent_start_message a) (agent_key a ++ "_agent_start");;
  try_catch
    (emit (AgentProcess (agent_key a) (user_query state) (user_context state));;
     result <-
       lift (agent_process X (agent_key a) (user_query state)
               (user_context state));;
     _send_progress (agent_complete_message a)
       (agent_key a ++ "_agent_complete");;
     lift (json_dumps_check result);;
     ret (set_response (agent_key a) result state))
    (fun e =>
       _send_progress
         ("❌ " ++ agent_title a ++ " agent failed: " ++ substring 0 50 e
            ++ "...")
         (agent_key a ++ "_agent_error");;
       let error_response := agent_error_response a (user_query state) e in
       lift (json_dumps_check error_response);;
       ret (set_response (agent_key a) error_response state)).

Definition run_market_agent := run_agent Market.
Definition run_satellite_agent := run_agent Satellite.
Definition run_weather_agent := run_agent Weather.
Definition run_pest_agent := run_agent Pest.
Definition run_soil_agent := run_agent Soil.
Definition run_search_agent := run_agent Search.

(** [agent_map] of [run_multiple_agents]. *)
Definition agent_map (k : string) : option (agent * (AgentState -> M AgentState)) :=
  match agent_of_key k with
  | Some Market => Some (Market, run_market_agent)
  | Some Satellite => Some (Satellite, run_satellite_agent)
  | Some Weather => Some (Weather, run_weather_agent)
  | Some Pest => Some (Pest, run_pest_agent)
  | Some Soil => Some (Soil, run_soil_agent)
  | Some Search => Some (Search, run_search_agent)
  | None => None
  end.

(** The summary [run_multiple_agents] prints of a stored response:
    [len(response['recommendations'])] raises on a value without a length;
    the ["data"] and ["error"] lines cannot raise. *)
Definition response_summary (response : pyval) : outcome unit :=
  match response with
  | PDict r =>
      match dict_lookup "recommendations" r with
      | Some recommendations => obind (py_len recommendations) (fun _ => Ok tt)
      | None => Ok tt
      end
  | _ => Ok tt
  end.

Definition execution_failed_response (agent_name e : string) : pyval :=
  PDict [("error", PStr ("Agent execution failed: " ++ e));
         ("data", PDict []);
         ("recommendations",
          PList [PStr ("Unable to get " ++ agent_name
                         ++ " recommendations due to error")])].

(** One turn of the loop of [run_multiple_agents].

    [temp_state = state.copy()] is a shallow copy: [temp_state["agent_responses"]]
    is the very dict object of [state], which every agent method mutates.
    [shared] is that object, [responses] the local dict [agent_responses].  A
    method that raises is taken to leave [shared] as it found it. *)
Definition run_one_agent (state : AgentState) (total i : nat)
    (agent_name : pyval) (shared responses : pydict) : M (pydict * pydict) :=
  if negb (py_hashable agent_name) then raise "TypeError: unhashable type"
  else
    match match agent_name with PStr name => agent_map name | _ => None end with
    | Some (a, method) =>
        let name := agent_key a in
        let agent_display_name := agent_display a in
        let on_error (e : string) (shared responses : pydict) :=
          _send_progress
            ("❌ " ++ agent_display_name ++ " Agent failed: "
               ++ substring 0 50 e ++ "...")
            "agent_error";;
          ret (shared, dict_set name (execution_failed_response name e) responses) in
        _send_progress
          ("🔄 [" ++ string_of_nat i ++ "/" ++ string_of_nat total
             ++ "] Running " ++ agent_display_name ++ " Agent...")
          "agent_running";;
        called <-
          try_catch
            (temp_state <- method (set_agent_responses shared state);;
             ret (inl temp_state))
            (fun e => ret (inr e));;
        match called with
        | inr e => on_error e shared responses
        | inl temp_state =>
            let shared := agent_responses temp_state in
            match dict_lookup name shared with
            | Some response =>
                let responses := dict_set name response responses in
                try_catch
                  (_send_progress
                     ("✅ " ++ agent_display_name
                        ++ " Agent completed successfully")
                     "agent_complete";;
                   lift (response_summary response);;
                   ret (shared, responses))
                  (fun e => on_error e shared responses)
            | None =>
                _send_progress
                  ("⚠️ " ++ agent_display_name
                     ++ " Agent completed with warnings")
                  "agent_warning";;
                ret (shared, responses)
            end
        end
    | None =>
        _send_progress
          ("⚠️ Unknown agent requested: " ++ py_str agent_name) "warning";;
        ret (shared, responses)
    end.

(** [for i, agent_name in enumerate(agents_to_run, 1)] *)
Fixpoint run_agents_loop (state : AgentState) (total i : nat)
    (items : list pyval) (shared responses : pydict) : M (pydict * pydict) :=
  match items with
  | [] => ret (shared, responses)
  | agent_name :: rest =>
      sr <- run_one_agent state total i agent_name shared responses;;
      run_agents_loop state total (S i) rest (fst sr) (snd sr)
  end.

Definition success_count (responses : pydict) : nat :=
  List.length (filter (fun kv => negb (is_failure (snd kv))) responses).

Definition run_multiple_agents (state : AgentState) : M AgentState :=
  let agents_to_run := agents_to_run state in
  total <- lift (py_len agents_to_run);;
  _send_progress
    ("🚀 Running " ++ string_of_nat total ++ " specialized agents...")
    "multiple_agents_start";;
  items <- lift (py_iter agents_to_run);;
  sr <- run_agents_loop state total 1 items (agent_responses state) [];;
  let agent_responses := snd sr in
  let state := set_agent_responses agent_responses state in
  _send_progress
    ("🎯 All agents completed! " ++ string_of_nat (success_count agent_responses)
       ++ "/" ++ string_of_nat (List.length agent_responses) ++ " successful")
    "multiple_agents_complete";;
  ret state.

Definition make_decision (state : AgentState) : M AgentState :=
  _send_progress
    "🤖 Combining all agent insights and generating your personalized response..."
    "decision_start";;
  let responses := agent_responses state in
  match responses with
  | [] =>
      let state := set_final_response the_final_apology state in
      _send_progress "⚠️ No agent responses received - using fallback" "warning";;
      ret state
  | _ :: _ =>
      (* the prompt holds [json.dumps(responses, indent=2)], built before [try] *)
      lift (json_dumps_check (PDict responses));;
      try_catch
        (text <- model_generate_content (DecisionPrompt responses);;
         _send_progress "✅ Final response generated successfully!"
           "decision_complete";;
         ret (set_final_response text state))
        (fun e =>
           _send_progress
             ("❌ Decision LLM failed: " ++ substring 0 50 e ++ "...")
             "decision_error";;
           ret (set_final_response the_decision_error_response state))
  end.

Definition verify_response (state : AgentState) : M AgentState :=
  _send_progress "🔍 Verifying response quality and accuracy..." "verifier_start";;
  let response := final_response state in
  let query := user_query state in
  try_catch
    (verification <- model_generate_content (VerifyPrompt query response);;
     confidence <- lift (float_of_str X (str_strip X verification));;
     let state :=
       set_confidence_score (py_min (py_max confidence float_0_0) float_1_0)
         state in
     _send_progress
       ("✅ Response verified - Confidence: "
          ++ format_percent X (confidence_score state))
       "verifier_complete";;
     ret state)
    (fun e =>
       _send_progress "⚠️ Verification failed, using default confidence"
         "warning";;
       ret (set_confidence_score float_0_7 state)).

Definition check_confidence (state : AgentState) : M AgentState :=
  ret (set_require_human_feedback
         (float_lt (confidence_score state) float_0_6) state).

Definition confidence_check (state : AgentState) : string :=
  if require_human_feedback state then "insufficient" else "sufficient".

Definition send_notifications (state : AgentState) : M AgentState :=
  _send_progress "📢 Processing notifications..." "notification_start";;
  try_catch
    (emit (ProcessNotifications (final_response state) (user_context state));;
     lift (process_notifications X (final_response state) (user_context state));;
     _send_progress "✅ Notifications processed" "notification_complete";;
     ret state)
    (fun e =>
       _send_progress "⚠️ Notification processing failed" "warning";;
       ret state).

(** *** The workflow of [_build_graph] *)

Inductive node : Type :=
| classify_intent_node
| run_multiple_agents_node
| market_agent
| satellite_agent
| weather_agent
| pest_agent
| soil_agent
| decision_llm
| verifier_agent
| notification_agent
| check_confidence_node
| search_agent.

(** [graph.add_node(name, method)] *)
Definition node_action (n : node) : AgentState -> M AgentState :=
  match n with
  | classify_intent_node => classify_intent
  | run_multiple_agents_node => run_multiple_agents
  | market_agent => run_market_agent
  | satellite_agent => run_satellite_agent
  | weather_agent => run_weather_agent
  | pest_agent => run_pest_agent
  | soil_agent => run_soil_agent
  | decision_llm => make_decision
  | verifier_agent => verify_response
  | notification_agent => send_notifications
  | check_confidence_node => check_confidence
  | search_agent => run_search_agent
  end.

Inductive target : Type :=
| Goto (n : node)
| END.

(** The path map of the conditional edges out of [classify_intent]. *)
Definition intent_path_map (route : string) : outcome target :=
  if String.eqb route "market" then Ok (Goto market_agent)
  else if String.eqb route "satellite" then Ok (Goto satellite_agent)
  else if String.eqb route "weather" then Ok (Goto weather_agent)
  else if String.eqb route "pest" then Ok (Goto pest_agent)
  else if String.eqb route "soil" then Ok (Goto soil_agent)
  else if String.eqb route "search" then Ok (Goto search_agent)
  else if String.eqb route "multiple" then Ok (Goto run_multiple_agents_node)
  else Raise ("KeyError: " ++ route).

(** The path map of the conditional edges out of [check_confidence]. *)
Definition confidence_path_map (route : string) : outcome target :=
  if String.eqb route "sufficient" then Ok (Goto notification_agent)
  else if String.eqb route "insufficient" then Ok END
  else Raise ("KeyError: " ++ route).

(** The edges: where the run goes after node [n] has returned [state]. *)
Definition next_node (n : node) (state : AgentState) : outcome target :=
  match n with
  | classify_intent_node => intent_path_map (route_to_agents state)
  | market_agent | satellite_agent | weather_agent
  | pest_agent | soil_agent | search_agent => Ok (Goto decision_llm)
  | run_multiple_agents_node => Ok (Goto decision_llm)
  | decision_llm => Ok (Goto verifier_agent)
  | verifier_agent => Ok (Goto check_confidence_node)
  | check_confidence_node => confidence_path_map (confidence_check state)
  | notification_agent => Ok END
  end.

(** LangGraph runs one node per step and gives up after [recursion_limit]
    steps (25 unless configured). *)
Definition recursion_limit : nat := 25.

Fixpoint run_from (fuel : nat) (n : node) (state : AgentState) : M AgentState :=
  match fuel with
  | O => raise "GraphRecursionError"
  | S fuel' =>
      state' <- node_action n state;;
      t <- lift (next_node n state');;
      match t with
      | END => ret state'
      | Goto n' => run_from fuel' n' state'
      end
  end.

(** [self.graph.invoke(initial_state)], entry point [classify_intent]. *)
Definition graph_invoke (initial_state : AgentState) : M AgentState :=
  run_from recursion_limit classify_intent_node initial_state.

Definition _save_query_safely (user_query : string) (user_context : pyval)
    (result : AgentState) : M unit :=
  try_catch
    (user_id <- lift (py_get user_context "user_id" PNone);;
     if negb (py_truthy user_id) then ret tt
     else
       found <- lift (user_exists X user_id);;
       if negb found then ret tt
       else
         let agents_triggered := dict_keys (agent_responses result) in
         emit (AgentQueryCreate user_query agents_triggered);;
         lift (agent_query_create X user_query agents_triggered))
    (fun e => ret tt).

(** [self._start_keep_alive()] and [self._stop_keep_alive()], as the main
    thread performs them; what the timer thread does in between is the
    subject of [KeepAlive] below. *)
Definition _start_keep_alive : M unit := emit KeepAliveStarted.
Definition _stop_keep_alive : M unit := emit KeepAliveStopped.

Definition initial_state (user_query : string) (user_context : pyval)
    : AgentState :=
  {| user_query := user_query;
     user_context := user_context;
     intent_classification := PStr "";
     confidence_score := float_0_0;
     agent_responses := [];
     final_response := "";
     require_human_feedback := false;
     agents_to_run := PList [] |}.

Definition process_query (user_query : string) (user_context : pyval)
    : M AgentState :=
  _start_keep_alive;;
  try_finally
    (result <- graph_invoke (initial_state user_query user_context);;
     _save_query_safely user_query user_context result;;
     ret result)
    _stop_keep_alive.

End Orchestrator.

(** ** The keep-alive timer, with its threads

    [process_query] runs on one thread; every [threading.Timer] runs
    [send_keep_alive] on a thread of its own.  The threads share
    [self.keep_alive_active] and [self.keep_alive_timer] and interleave
    between statements.  A schedule says which thread performs its next
    statement. *)

Module KeepAlive.

Local Open Scope list_scope.

(** The statements of [_start_keep_alive], [_stop_keep_alive],
    [_schedule_keep_alive] and [send_keep_alive]. *)
Inductive instr : Type :=
| SetActive (b : bool)          (* self.keep_alive_active = b *)
| IfActive (body : list instr)  (* if self.keep_alive_active: body *)
| IfTimer (body : list instr)   (* if self.keep_alive_timer: body *)
| CreateTimer   (* self.keep_alive_timer = threading.Timer(5.0, send_keep_alive) *)
| StartTimer                    (* self.keep_alive_timer.start() *)
| CancelTimer                   (* self.keep_alive_timer.cancel() *)
| ClearTimer                    (* self.keep_alive_timer = None *)
| Log (e : event).              (* an effect of the pipeline, or the callback *)

Definition code : Type := list instr.

(** [_schedule_keep_alive]: [if not self.keep_alive_active: return], then
    the timer is created and started. *)
Definition schedule_keep_alive : code := [IfActive [CreateTimer; StartTimer]].

Definition start_keep_alive : code := SetActive true :: schedule_keep_alive.

Definition stop_keep_alive : code :=
  [SetActive false; IfTimer [CancelTimer; ClearTimer]].

Definition keep_alive_event : event := Progress "Processing..." "keep_alive".

(** [send_keep_alive], the function of every timer; [_send_progress] calls
    the callback only when there is one. *)
Definition send_keep_alive (progress_callback : bool) : code :=
  [IfActive ((if progress_callback then [Log keep_alive_event] else [])
               ++ schedule_keep_alive)].

(** A [threading.Timer]: created, started and waiting for its interval,
    cancelled (its [finished] event set before the function began), or
    running its function with the statements left to do. *)
Inductive timer : Type :=
| Created
| Waiting
| Cancelled
| Running (rest : code).

Record system : Type := {
  keep_alive_active : bool;
  keep_alive_timer : option nat;   (* index into [timers] *)
  timers : list timer;
  main : code;                     (* what the main thread has left to do *)
  log : trace                      (* the effects so far, in order *)
}.

Definition set_timer (n : nat) (t : timer) (l : list timer) : list timer :=
  firstn n l ++ t :: skipn (S n) l.

(** [Timer.cancel()] sets [finished]; a function already running goes on. *)
Definition cancel (t : timer) : timer :=
  match t with
  | Created | Waiting | Cancelled => Cancelled
  | Running rest => Running rest
  end.

(** One statement, performed by a thread whose remaining statements are
    [rest]: the shared state after it and what the thread has left to do.
    [None]: the statement raises ([start] or [cancel] on [None], a timer
    started twice) and the thread dies. *)
Definition exec (i : instr) (rest : code) (s : system)
    : option (system * code) :=
  let with_timers ts :=
    {| keep_alive_active := keep_alive_active s;
       keep_alive_timer := keep_alive_timer s;
       timers := ts; main := main s; log := log s |} in
  match i with
  | SetActive b =>
      Some ({| keep_alive_active := b;
               keep_alive_timer := keep_alive_timer s;
               timers := timers s; main := main s; log := log s |}, rest)
  | IfActive body =>
      Some (s, if keep_alive_active s then body ++ rest else rest)
  | IfTimer body =>
      Some (s, match keep_alive_timer s with
               | Some _ => body ++ rest
               | None => rest
               end)
  | CreateTimer =>
      Some ({| keep_alive_active := keep_alive_active s;
               keep_alive_timer := Some (List.length (timers s));
               timers := timers s ++ [Created];
               main := main s; log := log s |}, rest)
  | StartTimer =>
      match keep_alive_timer s with
      | Some n =>
          match nth_error (timers s) n with
          | Some Created => Some (with_timers (set_timer n Waiting (timers s)), rest)
          | Some Cancelled => Some (s, rest)
          | _ => None
          end
      | None => None
      end
  | CancelTimer =>
      match keep_alive_timer s with
      | Some n =>
          match nth_error (timers s) n with
          | Some t => Some (with_timers (set_timer n (cancel t) (timers s)), rest)
          | None => None
          end
      | None => None
      end
  | ClearTimer =>
      Some ({| keep_alive_active := keep_alive_active s;
               keep_alive_timer := None;
               timers := timers s; main := main s; log := log s |}, rest)
  | Log e =>
      Some ({| keep_alive_active := keep_alive_active s;
               keep_alive_timer := keep_alive_timer s;
               timers := timers s; main := main s;
               log := log s ++ [e] |}, rest)
  end.

Definition set_main (c : code) (s : system) : system :=
  {| keep_alive_active := keep_alive_active s;
     keep_alive_timer := keep_alive_timer s;
     timers := timers s; main := c; log := log s |}.

Definition set_timers (ts : list timer) (s : system) : system :=
  {| keep_alive_active := keep_alive_active s;
     keep_alive_timer := keep_alive_timer s;
     timers := ts; main := main s; log := log s |}.

Inductive choice : Type :=
| RunMain               (* the main thread performs its next statement *)
| Fire (n : nat)        (* timer [n]'s interval elapses: its function begins *)
| RunTimer (n : nat).   (* timer [n]'s thread performs its next statement *)

(** One step of the system; [None] when the chosen thread cannot move. *)
Definition step (progress_callback : bool) (c : choice) (s : system)
    : option system :=
  match c with
  | RunMain =>
      match main s with
      | i :: rest =>
          match exec i rest s with
          | Some (s', rest') => Some (set_main rest' s')
          | None => Some (set_main [] s)
          end
      | [] => None
      end
  | Fire n =>
      match nth_error (timers s) n with
      | Some Waiting =>
          Some (set_timers
                  (set_timer n (Running (send_keep_alive progress_callback))
                     (timers s)) s)
      | _ => None
      end
  | RunTimer n =>
      match nth_error (timers s) n with
      | Some (Running (i :: rest)) =>
          match exec i rest s with
          | Some (s', rest') =>
              Some (set_timers (set_timer n (Running rest') (timers s')) s')
          | None => Some (set_timers (set_timer n (Running []) (timers s)) s)
          end
      | _ => None
      end
  end.

Fixpoint run (progress_callback : bool) (schedule : list choice) (s : system)
    : option system :=
  match schedule with
  | [] => Some s
  | c :: schedule' =>
      match step progress_callback c s with
      | Some s' => run progress_callback schedule' s'
      | None => None
      end
  end.

(** The main thread's statements for a trace of [process_query]: the timer
    is started and stopped where the trace says so, every other effect is
    performed as it stands.  [KeepAliveStopped] is logged when
    [_stop_keep_alive] has returned. *)
Definition main_code_of (e : event) : code :=
  match e with
  | KeepAliveStarted => start_keep_alive
  | KeepAliveStopped => stop_keep_alive ++ [Log KeepAliveStopped]
  | _ => [Log e]
  end.

Definition main_code (t : trace) : code := flat_map main_code_of t.

Definition initial (t : trace) : system :=
  {| keep_alive_active := false;
     keep_alive_timer := None;
     timers := [];
     main := main_code t;
     log := [] |}.

(** A keep-alive event comes after the stop in a log. *)
Definition is_keep_alive (e : event) : bool :=
  match e with
  | Progress _ k => String.eqb k "keep_alive"
  | _ => false
  end.

Definition is_stopped (e : event) : bool :=
  match e with
  | KeepAliveStopped => true
  | _ => false
  end.

Fixpoint keep_alive_after_stop (l : trace) : bool :=
  match l with
  | [] => false
  | e :: l' =>
      if is_stopped e then existsb is_keep_alive l'
      else keep_alive_after_stop l'
  end.

(** An effect that is neither the start nor the stop of the timer. *)
Definition plain (e : event) : bool :=
  match e with
  | KeepAliveStarted | KeepAliveStopped => false
  | _ => true
  end.

(** The schedule of the race, for a run whose pipeline performs [evs]: the
    first timer fires and tests the flag just before the pipeline ends; the
    main thread then finishes, stop included; the timer's thread goes on to
    call the callback. *)
Definition race_schedule (evs : trace) : list choice :=
  [RunMain; RunMain; RunMain; RunMain; Fire 0; RunTimer 0]
  ++ repeat RunMain (List.length evs)
  ++ [RunMain; RunMain; RunMain; RunMain; RunMain; RunTimer 0].

End KeepAlive.

(** ** The progress stream: [SSEProgressTracker] of [views.py]

    Clock readings ([time.time()]) are rationals, given with each call. *)

Module SSE.

Local Open Scope list_scope.

Record message_data : Type := {
  message : string;
  event_type : string;     (* key ['event'] *)
  timestamp : Q
}.

Record SSEProgressTracker : Type := {
  message_queue : list message_data;   (* a FIFO [Queue], head first *)
  is_active : bool;
  last_activity : Q
}.

(** [__init__] *)
Definition init (now : Q) : SSEProgressTracker :=
  {| message_queue := []; is_active := true; last_activity := now |}.

(** [add_message(message, event_type)]; the clock is read twice. *)
Definition add_message (msg ev : string) (now1 now2 : Q)
    (t : SSEProgressTracker) : SSEProgressTracker :=
  if is_active t then
    {| message_queue :=
         message_queue t
           ++ [{| message := msg; event_type := ev; timestamp := now2 |}];
       is_active := is_active t;
       last_activity := now1 |}
  else t.

(** [stop()] *)
Definition stop (t : SSEProgressTracker) : SSEProgressTracker :=
  {| message_queue := message_queue t;
     is_active := false;
     last_activity := last_activity t |}.

(** What one turn of the loop of [get_messages] does. *)
Inductive poll : Type :=
| Yield (m : message_data)      (* a queued message is handed to the consumer *)
| Sleep                         (* nothing queued: [time.sleep(0.1)] *)
| Timeout (m : message_data)    (* 60 s of silence: the timeout event, then [break] *)
| Exhausted.                    (* the [while] condition is false *)

Definition timeout_message (now : Q) : message_data :=
  {| message := "Request timed out due to inactivity";
     event_type := "timeout";
     timestamp := now |}.

(** One turn of [while self.is_active or not self.message_queue.empty()];
    the clock is read for the test and again for the timestamp. *)
Definition get_messages_turn (now1 now2 : Q) (t : SSEProgressTracker)
    : SSEProgressTracker * poll :=
  match message_queue t with
  | m :: rest =>
      ({| message_queue := rest; is_active := is_active t;
          last_activity := last_activity t |}, Yield m)
  | [] =>
      if is_active t then
        if Qltb 60 (now1 - last_activity t) then
          ({| message_queue := []; is_active := false;
              last_activity := last_activity t |},
           Timeout (timeout_message now2))
        else (t, Sleep)
      else (t, Exhausted)
  end.

(** The producer and the consumer of one stream: the tracker, whether the
    generator [get_messages()] has returned, and what it has yielded. *)
Record stream : Type := {
  tracker : SSEProgressTracker;
  generator_done : bool;
  delivered : list message_data
}.

Inductive op : Type :=
| Add (msg ev : string) (now1 now2 : Q)   (* progress_tracker.add_message *)
| Stop                                    (* progress_tracker.stop() *)
| Next (now1 now2 : Q).                   (* the consumer asks for the next message *)

Definition apply (o : op) (s : stream) : stream :=
  match o with
  | Add msg ev now1 now2 =>
      {| tracker := add_message msg ev now1 now2 (tracker s);
         generator_done := generator_done s;
         delivered := delivered s |}
  | Stop =>
      {| tracker := stop (tracker s);
         generator_done := generator_done s;
         delivered := delivered s |}
  | Next now1 now2 =>
      if generator_done s then s
      else
        match get_messages_turn now1 now2 (tracker s) with
        | (t, Yield m) =>
            {| tracker := t; generator_done := false;
               delivered := delivered s ++ [m] |}
        | (t, Sleep) =>
            {| tracker := t; generator_done := false;
               delivered := delivered s |}
        | (t, Timeout m) =>
            {| tracker := t; generator_done := true;
               delivered := delivered s ++ [m] |}
        | (t, Exhausted) =>
            {| tracker := t; generator_done := true;
               delivered := delivered s |}
        end
  end.

Definition apply_all (ops : list op) (s : stream) : stream :=
  fold_left (fun s o => apply o s) ops s.

(** What holds of a stream from the moment its tracker is stopped, with
    [queue] and [last] the queue and the last activity at that moment and
    [already] what had been delivered: the consumer has since been handed a
    prefix of [queue], and the rest of [queue] is all that is left. *)
Definition drains (queue : list message_data) (last : Q)
    (already : list message_data) (s : stream) : Prop :=
  is_active (tracker s) = false
  /\ last_activity (tracker s) = last
  /\ exists k,
       delivered s = already ++ firstn k queue
       /\ message_queue (tracker s) = skipn k queue.

End SSE.

(** * Part II: what the theorems speak of

    Pure readings of the nodes (what a node returns and stores, effects
    aside), the kinds of events, the specification's own wording where a
    claim is compared with it, and concrete worlds for the examples. *)

(** *** Outcome and events of a computation *)

Definition result {A} (m : M A) : outcome A := fst m.
Definition events {A} (m : M A) : trace := snd m.

(** *** Classification *)

(** What the [try] block of [classify_intent] computes, effects aside. *)
Definition classify_plan (X : Externals) (query : string)
    : outcome (pyval * pyval * pyfloat) :=
  obind (generate_content X (ClassifyPrompt query)) (fun text =>
  obind (json_loads X text) (fun result =>
  obind (py_get result "agents_needed" (PList [])) (fun agents_needed =>
  obind (py_len agents_needed) (fun n =>
  obind (if Nat.eqb n 1 then py_getitem0 agents_needed
         else Ok (PStr "multiple")) (fun intent =>
  obind (obind (py_get result "confidence" (PFloat float_0_5)) (py_float X))
    (fun confidence =>
  obind (py_iter agents_needed) (fun items =>
  obind (display_names X items) (fun _ =>
  Ok (intent, agents_needed, confidence))))))))).

(** The four fields [classify_intent] assigns. *)
Definition classified (intent agents_needed : pyval) (confidence : pyfloat)
    (state : AgentState) : AgentState :=
  set_agent_responses []
    (set_confidence_score confidence
      (set_agents_to_run agents_needed
        (set_intent_classification intent state))).

(** The state the [except] branch of [classify_intent] leaves. *)
Definition fallback_state : AgentState -> AgentState :=
  classified (PStr "multiple") fallback_agents float_0_5.

(** The state after [classify_intent]. *)
Definition classify_state (X : Externals) (state : AgentState) : AgentState :=
  match classify_plan X (user_query state) with
  | Ok (intent, agents_needed, confidence) =>
      classified intent agents_needed confidence state
  | Raise _ => fallback_state state
  end.

(** The names a plan iterates over. *)
Definition plan_names (plan : pyval) : list string :=
  match py_iter plan with
  | Ok items =>
      flat_map (fun x => match x with PStr s => [s] | _ => [] end) items
  | Raise _ => []
  end.

(** *** The agent stage *)

(** The agents called, in order. *)
Definition agent_calls (t : trace) : list string :=
  flat_map (fun e => match e with AgentProcess k _ _ => [k] | _ => [] end) t.

(** What a [run_<name>_agent] method stores under the agent's key. *)
Definition stored_result (X : Externals) (a : agent) (query : string)
    (context : pyval) : pyval :=
  match agent_process X (agent_key a) query context with
  | Ok r =>
      match json_dumps_check r with
      | Ok _ => r
      | Raise e => agent_error_response a query e
      end
  | Raise e => agent_error_response a query e
  end.

(** What [run_multiple_agents] collects for an agent: what the agent's
    method stored, unless printing its summary raised. *)
Definition collected_result (X : Externals) (a : agent) (query : string)
    (context : pyval) : pyval :=
  let r := stored_result X a query context in
  match response_summary r with
  | Ok _ => r
  | Raise e => execution_failed_response (agent_key a) e
  end.

(** One turn of the runner's loop on its local dict [agent_responses]. *)
Definition collect (X : Externals) (state : AgentState) (d : pydict)
    (name : string) : pydict :=
  match agent_of_key name with
  | Some a =>
      dict_set (agent_key a)
        (collected_result X a (user_query state) (user_context state)) d
  | None => d
  end.

(** One turn of the runner's loop on the dict the temporary states share. *)
Definition share (X : Externals) (state : AgentState) (d : pydict)
    (name : string) : pydict :=
  match agent_of_key name with
  | Some a =>
      dict_set (agent_key a)
        (stored_result X a (user_query state) (user_context state)) d
  | None => d
  end.

(** [json.dumps] accepts every value of the dict. *)
Definition serialisable (d : pydict) : Prop :=
  Forall (fun kv => json_dumps_check (snd kv) = Ok tt) d.

(** The graph node of a single agent. *)
Definition agent_node (a : agent) : node :=
  match a with
  | Market => market_agent
  | Satellite => satellite_agent
  | Weather => weather_agent
  | Pest => pest_agent
  | Soil => soil_agent
  | Search => search_agent
  end.

(** The node that runs the agents, as [route_to_agents] chooses it. *)
Definition stage_node (state : AgentState) : node :=
  match agent_of_key (route_to_agents state) with
  | Some a => agent_node a
  | None => run_multiple_agents_node
  end.

(** The results after the agent stage. *)
Definition stage_responses (X : Externals) (state : AgentState) : pydict :=
  match agent_of_key (route_to_agents state) with
  | Some a =>
      dict_set (agent_key a)
        (stored_result X a (user_query state) (user_context state))
        (agent_responses state)
  | None => fold_left (collect X state) (plan_names (agents_to_run state)) []
  end.

(** *** Synthesis, verification, gate *)

(** The final answer [make_decision] stores. *)
Definition decision_text (X : Externals) (state : AgentState) : string :=
  match agent_responses state with
  | [] => the_final_apology
  | _ :: _ =>
      match generate_content X (DecisionPrompt (agent_responses state)) with
      | Ok text => text
      | Raise _ => the_decision_error_response
      end
  end.

(** The verifier's [min(max(confidence, 0.0), 1.0)]. *)
Definition clamp01 (c : pyfloat) : pyfloat :=
  py_min (py_max c float_0_0) float_1_0.

(** The score [verify_response] stores. *)
Definition verified_score (X : Externals) (state : AgentState) : pyfloat :=
  match generate_content X
          (VerifyPrompt (user_query state) (final_response state)) with
  | Ok text =>
      match float_of_str X (str_strip X text) with
      | Ok c => clamp01 c
      | Raise _ => float_0_7
      end
  | Raise _ => float_0_7
  end.

(** The state after [check_confidence]. *)
Definition gated (state : AgentState) : AgentState :=
  set_require_human_feedback
    (float_lt (confidence_score state) float_0_6) state.

(** The states a run goes through. *)
Definition staged (X : Externals) (s0 : AgentState) : AgentState :=
  let s1 := classify_state X s0 in
  set_agent_responses (stage_responses X s1) s1.

Definition decided (X : Externals) (s0 : AgentState) : AgentState :=
  let s2 := staged X s0 in
  set_final_response (decision_text X s2) s2.

Definition verified (X : Externals) (s0 : AgentState) : AgentState :=
  let s3 := decided X s0 in
  set_confidence_score (verified_score X s3) s3.

Definition final_state (X : Externals) (s0 : AgentState) : AgentState :=
  gated (verified X s0).

(** *** Kinds of events *)

(** Progress and model calls: all that classification, synthesis and
    verification emit. *)
Definition chatter (e : event) : bool :=
  match e with
  | Progress _ _ | GenerateContent _ => true
  | _ => false
  end.

(** Progress and agent calls: all that the agent stage emits. *)
Definition agent_work (e : event) : bool :=
  match e with
  | Progress _ _ | AgentProcess _ _ _ => true
  | _ => false
  end.

(** All that [_save_query_safely] emits. *)
Definition database_work (e : event) : bool :=
  match e with
  | AgentQueryCreate _ _ => true
  | _ => false
  end.

(** All that [send_notifications] emits. *)
Definition notification_work (e : event) : bool :=
  match e with
  | Progress _ _ | ProcessNotifications _ _ => true
  | _ => false
  end.

(** *** The specification's words *)

(** The contract of section 4.1 in the specification's own words: the
    categories de-duplicated and filtered to the closed agent set, and the
    label read off what survives. *)
Definition spec_agents_to_run (needed : list string) : list string :=
  nodup string_dec (filter known_agent needed).

Definition spec_intent_label (plan : list string) : string :=
  match plan with
  | [name] => name
  | _ => "multiple"
  end.

(** [0.0 <= x <= 1.0]; NaN is in no interval. *)
Definition in_unit_interval (x : pyfloat) : bool :=
  negb (is_nan x) && negb (float_lt x float_0_0)
  && negb (float_lt float_1_0 x).

(** "Clamped to [0,1]", in the specification's words: the nearest value of
    the interval.  NaN has none. *)
Definition clamp_to_unit_interval (c : pyfloat) : option pyfloat :=
  if is_nan c then None
  else if float_lt c float_0_0 then Some float_0_0
  else if float_lt float_1_0 c then Some float_1_0
  else Some c.

(** *** Concrete worlds, for the examples *)

Definition scripted (classification : outcome string) (parsed : outcome pyval)
    (decision verification : outcome string) (score : outcome pyfloat)
    (agents : string -> outcome pyval) : Externals :=
  {| generate_content := fun p =>
       match p with
       | ClassifyPrompt _ => classification
       | DecisionPrompt _ => decision
       | VerifyPrompt _ _ => verification
       end;
     json_loads := fun _ => parsed;
     float_of_str := fun _ => score;
     float_of_big_int := fun _ => Raise "OverflowError";
     str_strip := fun s => s;
     str_title := fun s => s;
     format_percent := fun _ => "?%";
     py_repr := fun _ => "?";
     agent_process := fun name _ _ => agents name;
     process_notifications := fun _ _ => Ok tt;
     user_exists := fun _ => Ok false;
     agent_query_create := fun _ _ => Ok tt |}.

Definition healthy_agents (name : string) : outcome pyval :=
  Ok (PDict [("agent", PStr name); ("data", PDict []);
             ("analysis", PStr "fine"); ("timestamp", PStr "now")]).

Definition classification_of (needed : list string) (confidence : pyfloat)
    : pyval :=
  PDict [("primary_intent", PStr "multiple");
         ("agents_needed", PList (map PStr needed));
         ("confidence", PFloat confidence)].

Definition farm_context : pyval :=
  PDict [("user_id", PNone); ("farm_id", PInt 1);
         ("farm_location", PStr "California"); ("farm_name", PStr "Test Farm")].

Definition repeated_weather_world : Externals :=
  scripted (Ok "{...}")
    (Ok (classification_of ["weather"; "drone"; "weather"] (FFin (9 # 10))))
    (Ok "answer") (Ok "0.9") (Ok (FFin (9 # 10))) healthy_agents.

Definition pest_fails (name : string) : outcome pyval :=
  if String.eqb name "pest" then Raise "connection refused"
  else healthy_agents name.

Definition pest_fails_world : Externals :=
  scripted (Ok "{...}")
    (Ok (classification_of ["weather"; "pest"; "soil"] (FFin (9 # 10))))
    (Ok "answer") (Ok "0.8") (Ok (FFin (4 # 5))) pest_fails.

Definition verifier_down_world : Externals :=
  scripted (Ok "{...}")
    (Ok (classification_of ["weather"] (FFin (9 # 10))))
    (Ok "answer") (Raise "503 Service Unavailable") (Raise "ValueError")
    healthy_agents.

Definition generous_verifier_world : Externals :=
  scripted (Ok "{...}")
    (Ok (classification_of ["weather"] (FFin (9 # 10))))
    (Ok "answer") (Ok "1.5") (Ok (FFin (3 # 2))) healthy_agents.

Definition no_agent_world : Externals :=
  scripted (Ok "{...}") (Ok (classification_of [] (FFin (3 # 10))))
    (Ok "answer") (Ok "0.2") (Ok (FFin (1 # 5))) healthy_agents.

Definition vague_confidence_world : Externals :=
  scripted (Ok "{...}")
    (Ok (PDict [("primary_intent", PStr "multiple");
                ("agents_needed", PList []);
                ("confidence", PStr "high")]))
    (Ok "answer") (Ok "high")
    (Raise "ValueError: could not convert string to float: 'high'")
    healthy_agents.

(** The verifier answers "nan", which [float] accepts. *)
Definition nan_verifier_world : Externals :=
  scripted (Ok "{...}")
    (Ok (classification_of ["weather"] (FFin (9 # 10))))
    (Ok "answer") (Ok "nan") (Ok FNaN) healthy_agents.

(** The classifier repeats a name, invents one, and is 150% confident. *)
Definition overconfident_world : Externals :=
  scripted (Ok "{...}")
    (Ok (classification_of ["weather"; "drone"; "weather"] (FFin (3 # 2))))
    (Ok "answer") (Ok "0.9") (Ok (FFin (9 # 10))) healthy_agents.

Definition stopped_tracker : SSE.SSEProgressTracker :=
  SSE.stop
    (SSE.add_message "Processing completed successfully!" "processing_complete"
       12 12 (SSE.init 0)).


(** *** The progress callback's share of a trace *)



(** The number of progress events of one type. *)
Definition progress_count (k : string) (t : trace) : nat :=
  List.length
    (filter (fun e => match e with
                      | Progress _ k' => String.eqb k' k
                      | _ => false
                      end) t).


(** The runner's own event types are not those of the agent methods. *)
Definition runner_event_type (k : string) : bool :=
  existsb (String.eqb k) ["agent_running"; "agent_complete"; "agent_warning"].



(** *** The stream as its consumer sees it *)




(** * Part III: theorems *)

(** ** The effect monad *)

Lemma result_bind {A B} (m : M A) (k : A -> M B) :
  result (bind m k)
  = match result m with Ok a => result (k a) | Raise e => Raise e end.
Proof.
  unfold result, bind. destruct m as [[a|e] t]; cbn; [|reflexivity].
  destruct (k a); reflexivity.
Qed.

Lemma events_bind {A B} (m : M A) (k : A -> M B) :
  events (bind m k)
  = (events m
       ++ match result m with Ok a => events (k a) | Raise _ => [] end)%list.
Proof.
  unfold events, result, bind. destruct m as [[a|e] t]; cbn.
  - destruct (k a); reflexivity.
  - now rewrite app_nil_r.
Qed.

Lemma result_try_catch {A} (m : M A) (h : string -> M A) :
  result (try_catch m h)
  = match result m with Ok a => Ok a | Raise e => result (h e) end.
Proof.
  unfold result, try_catch. destruct m as [[a|e] t]; cbn; [reflexivity|].
  destruct (h e); reflexivity.
Qed.

Lemma events_try_catch {A} (m : M A) (h : string -> M A) :
  events (try_catch m h)
  = (events m
       ++ match result m with Ok _ => [] | Raise e => events (h e) end)%list.
Proof.
  unfold events, result, try_catch. destruct m as [[a|e] t]; cbn.
  - now rewrite app_nil_r.
  - destruct (h e); reflexivity.
Qed.

Lemma result_send_progress (cb : bool) (msg k : string) :
  result (_send_progress cb msg k) = Ok tt.
Proof. destruct cb; reflexivity. Qed.

Lemma events_send_progress (cb : bool) (msg k : string) :
  events (_send_progress cb msg k) = if cb then [Progress msg k] else [].
Proof. destruct cb; reflexivity. Qed.

Lemma result_lift {A} (o : outcome A) : result (lift o) = o.
Proof. reflexivity. Qed.

Lemma events_lift {A} (o : outcome A) : events (lift o) = [].
Proof. reflexivity. Qed.

Lemma result_ret {A} (a : A) : result (ret a) = Ok a.
Proof. reflexivity. Qed.

Lemma events_ret {A} (a : A) : events (ret a) = [].
Proof. reflexivity. Qed.

Lemma result_emit (e : event) : result (emit e) = Ok tt.
Proof. reflexivity. Qed.

Lemma events_emit (e : event) : events (emit e) = [e].
Proof. reflexivity. Qed.

Lemma result_raise {A} (e : string) : result (@raise A e) = Raise e.
Proof. reflexivity. Qed.

Lemma events_raise {A} (e : string) : events (@raise A e) = [].
Proof. reflexivity. Qed.

Lemma M_eta {A} (m : M A) : m = (result m, events m).
Proof. destruct m; reflexivity. Qed.

(** Push [result] and [events] through the head of a computation. *)
Ltac mstep :=
  rewrite ?result_bind, ?result_try_catch, ?result_send_progress, ?result_lift,
    ?result_ret, ?result_emit, ?result_raise,
    ?events_bind, ?events_try_catch, ?events_send_progress, ?events_lift,
    ?events_ret, ?events_emit, ?events_raise;
  cbv beta iota.

Ltac msteps := repeat (progress mstep).

(** C5.  When the result map is empty as the synthesizer runs,
    [make_decision] returns with the fixed apology as the final answer, and
    the language model is not called. *)
Theorem make_decision_empty_results_apology
    (X : Externals) (cb : bool) (state : AgentState) :
  agent_responses state = [] ->
  result (make_decision X cb state)
    = Ok (set_final_response the_final_apology state)
  /\ final_response (set_final_response the_final_apology state)
     = the_final_apology
  /\ forall p, ~ In (GenerateContent p) (events (make_decision X cb state)).
Proof.
  intros Hempty. unfold make_decision. rewrite Hempty.
  destruct cb; cbn; repeat split; try reflexivity;
    intros p H; cbn in H; intuition discriminate.
Qed.

(** ** Classification *)

Lemma classify_intent_result (X : Externals) (cb : bool) (state : AgentState) :
  result (classify_intent X cb state)
  = Ok match classify_plan X (user_query state) with
       | Ok (intent, agents_needed, confidence) =>
           classified intent agents_needed confidence state
       | Raise _ => fallback_state state
       end.
Proof.
  unfold classify_intent, classify_plan, model_generate_content.
  msteps.
  destruct (generate_content X (ClassifyPrompt (user_query state))) as [text|e];
    cbn [obind]; msteps; [|reflexivity].
  destruct (json_loads X text) as [res|e]; cbn [obind]; msteps; [|reflexivity].
  destruct (py_get res "agents_needed" (PList [])) as [needed|e];
    cbn [obind]; msteps; [|reflexivity].
  destruct (py_len needed) as [n|e]; cbn [obind]; msteps; [|reflexivity].
  destruct (Nat.eqb n 1); msteps.
  - destruct (py_getitem0 needed) as [intent|e]; cbn [obind]; msteps;
      [|reflexivity].
    destruct (obind (py_get res "confidence" (PFloat float_0_5)) (py_float X))
      as [confidence|e]; cbn [obind]; msteps; [|reflexivity].
    destruct (py_iter needed) as [items|e]; cbn [obind]; msteps; [|reflexivity].
    destruct (display_names X items) as [ds|e]; cbn [obind]; msteps; reflexivity.
  - cbn [obind].
    destruct (obind (py_get res "confidence" (PFloat float_0_5)) (py_float X))
      as [confidence|e]; cbn [obind]; msteps; [|reflexivity].
    destruct (py_iter needed) as [items|e]; cbn [obind]; msteps; [|reflexivity].
    destruct (display_names X items) as [ds|e]; cbn [obind]; msteps; reflexivity.
Qed.

(** C4.  When the classification call raises, or returns text that
    [json.loads] rejects, [classify_intent] still returns: the plan is the
    fixed default weather, soil; the confidence score is exactly 0.5; the
    intent label is "multiple". *)
Theorem classify_intent_falls_back_on_oracle_failure
    (X : Externals) (cb : bool) (state : AgentState) :
  ((exists e,
      generate_content X (ClassifyPrompt (user_query state)) = Raise e)
   \/ (exists text e,
         generate_content X (ClassifyPrompt (user_query state)) = Ok text
         /\ json_loads X text = Raise e)) ->
  exists state',
    result (classify_intent X cb state) = Ok state'
    /\ agents_to_run state' = PList [PStr "weather"; PStr "soil"]
    /\ confidence_score state' = float_0_5
    /\ intent_classification state' = PStr "multiple".
Proof.
  intros Hfail. exists (fallback_state state).
  rewrite classify_intent_result. unfold classify_plan.
  destruct Hfail as [[e He] | (text & e & Hgen & Hjson)].
  - rewrite He. cbn. repeat split.
  - rewrite Hgen. cbn [obind]. rewrite Hjson. cbn. repeat split.
Qed.

Lemma display_names_strings (X : Externals) (names : list string) :
  exists ds, display_names X (map PStr names) = Ok ds.
Proof.
  induction names as [|name names [ds IH]]; cbn.
  - now exists [].
  - rewrite IH. cbn. eauto.
Qed.

Lemma getitem0_strings (names : list string) :
  List.length names = 1%nat ->
  py_getitem0 (PList (map PStr names))
  = Ok (PStr match names with [name] => name | _ => "multiple" end).
Proof.
  destruct names as [|name [|]]; cbn; intros H; try discriminate H.
  reflexivity.
Qed.

Lemma classify_plan_schema (X : Externals) (query text : string)
    (entries : pydict) (needed : list string) (c : pyfloat) :
  generate_content X (ClassifyPrompt query) = Ok text ->
  json_loads X text = Ok (PDict entries) ->
  match dict_lookup "agents_needed" entries with
  | Some v => v
  | None => PList []
  end = PList (map PStr needed) ->
  py_float X match dict_lookup "confidence" entries with
             | Some v => v
             | None => PFloat float_0_5
             end = Ok c ->
  classify_plan X query
  = Ok (PStr match needed with [name] => name | _ => "multiple" end,
        PList (map PStr needed), c).
Proof.
  intros Hgen Hjson Hneeded Hconf. unfold classify_plan.
  rewrite Hgen. cbn [obind]. rewrite Hjson. cbn [obind py_get].
  rewrite Hneeded. cbn [obind py_len py_iter]. rewrite Hconf. cbn [obind].
  rewrite length_map.
  destruct (display_names_strings X needed) as [ds Hds]. 
  destruct (Nat.eqb (List.length needed) 1) eqn:Hlen.
  - apply Nat.eqb_eq in Hlen. rewrite (getitem0_strings needed Hlen).
    cbn [obind]. rewrite Hds. reflexivity.
  - cbn [obind]. rewrite Hds. cbn [obind].
    destruct needed as [|name [|]]; try reflexivity. discriminate Hlen.
Qed.

(** C4, witness: the model answers in prose. *)
Lemma classify_intent_falls_back_on_oracle_failure_witness :
  exists state',
    result (classify_intent
              (scripted (Ok "Sure! Here is the JSON you asked for")
                 (Raise "JSONDecodeError") (Ok "answer") (Ok "0.9")
                 (Ok (FFin (9 # 10))) healthy_agents)
              true (initial_state "rain?" farm_context)) = Ok state'
    /\ agents_to_run state' = PList [PStr "weather"; PStr "soil"]
    /\ confidence_score state' = float_0_5
    /\ intent_classification state' = PStr "multiple".
Proof.
  apply classify_intent_falls_back_on_oracle_failure.
  right. exists "Sure! Here is the JSON you asked for", "JSONDecodeError".
  split; reflexivity.
Defined.

(** ** The agent gateway: the six [run_<name>_agent] methods *)

Lemma agent_calls_app (t1 t2 : trace) :
  agent_calls (t1 ++ t2)%list = (agent_calls t1 ++ agent_calls t2)%list.
Proof. apply flat_map_app. Qed.

Lemma agent_calls_progress (cb : bool) (msg k : string) :
  agent_calls (if cb then [Progress msg k] else []) = [].
Proof. destruct cb; reflexivity. Qed.

Lemma agent_error_response_dumps (a : agent) (query e : string) :
  json_dumps_check (agent_error_response a query e) = Ok tt.
Proof. destruct a; reflexivity. Qed.

Lemma run_agent_result (X : Externals) (cb : bool) (a : agent)
    (state : AgentState) :
  result (run_agent X cb a state)
  = Ok (set_response (agent_key a)
          (stored_result X a (user_query state) (user_context state)) state).
Proof.
  unfold run_agent, stored_result. msteps.
  destruct (agent_process X (agent_key a) (user_query state)
              (user_context state)) as [r|e]; msteps.
  - destruct (json_dumps_check r) as [[]|e]; msteps; [reflexivity|].
    rewrite agent_error_response_dumps. reflexivity.
  - rewrite agent_error_response_dumps. reflexivity.
Qed.

Lemma run_agent_calls (X : Externals) (cb : bool) (a : agent)
    (state : AgentState) :
  agent_calls (events (run_agent X cb a state)) = [agent_key a].
Proof.
  unfold run_agent. msteps.
  destruct (agent_process X (agent_key a) (user_query state)
              (user_context state)) as [r|e]; msteps.
  - destruct (json_dumps_check r) as [[]|e]; msteps;
      rewrite ?agent_error_response_dumps;
      repeat rewrite ?agent_calls_app, ?agent_calls_progress; reflexivity.
  - rewrite agent_error_response_dumps.
    repeat rewrite ?agent_calls_app, ?agent_calls_progress; reflexivity.
Qed.

(** ** Dicts *)

Lemma dict_lookup_set_same (k : string) (v : pyval) (d : pydict) :
  dict_lookup k (dict_set k v d) = Some v.
Proof.
  induction d as [|[k' v'] d IH]; cbn.
  - now rewrite String.eqb_refl.
  - destruct (String.eqb k k') eqn:E; cbn.
    + now rewrite String.eqb_refl.
    + now rewrite E.
Qed.


Lemma dict_set_set (k : string) (v1 v2 : pyval) (d : pydict) :
  dict_set k v2 (dict_set k v1 d) = dict_set k v2 d.
Proof.
  induction d as [|[k' v'] d IH]; cbn.
  - now rewrite String.eqb_refl.
  - destruct (String.eqb k k') eqn:E; cbn.
    + now rewrite String.eqb_refl.
    + now rewrite E, IH.
Qed.

Lemma dict_keys_set (k k' : string) (v : pyval) (d : pydict) :
  In k' (dict_keys (dict_set k v d)) <-> k' = k \/ In k' (dict_keys d).
Proof.
  unfold dict_keys. induction d as [|[k0 v0] d IH]; cbn.
  - intuition congruence.
  - destruct (String.eqb_spec k k0) as [->|Hk]; cbn.
    + intuition congruence.
    + rewrite IH. intuition congruence.
Qed.

Lemma dict_keys_set_NoDup (k : string) (v : pyval) (d : pydict) :
  NoDup (dict_keys d) -> NoDup (dict_keys (dict_set k v d)).
Proof.
  unfold dict_keys. induction d as [|[k0 v0] d IH]; cbn; intros Hnd.
  - constructor; [intros []|constructor].
  - inversion Hnd as [|? ? Hnotin Hnd']; subst.
    destruct (String.eqb_spec k k0) as [->|Hk]; cbn.
    + now constructor.
    + constructor; [|now apply IH].
      intros Hin. apply (dict_keys_set k k0 v d) in Hin.
      destruct Hin as [Heq|Hin]; [congruence|contradiction].
Qed.

(** ** The closed agent set *)

Lemma agent_of_key_key (a : agent) : agent_of_key (agent_key a) = Some a.
Proof. destruct a; reflexivity. Qed.

Lemma agent_of_key_Some (k : string) (a : agent) :
  agent_of_key k = Some a -> k = agent_key a.
Proof.
  unfold agent_of_key. intros H. apply find_some in H.
  now apply String.eqb_eq.
Qed.

Lemma agent_map_Some (X : Externals) (cb : bool) (k : string) (a : agent) :
  agent_of_key k = Some a -> agent_map X cb k = Some (a, run_agent X cb a).
Proof. unfold agent_map. intros ->. destruct a; reflexivity. Qed.

Lemma agent_map_None (X : Externals) (cb : bool) (k : string) :
  agent_of_key k = None -> agent_map X cb k = None.
Proof. unfold agent_map. now intros ->. Qed.

(** ** The multi-agent runner *)

Lemma run_one_agent_result (X : Externals) (cb : bool) (state : AgentState)
    (total i : nat) (name : string) (shared responses : pydict) :
  result (run_one_agent X cb state total i (PStr name) shared responses)
  = Ok (share X state shared name, collect X state responses name).
Proof.
  unfold run_one_agent, share, collect, collected_result. cbn [py_hashable negb].
  destruct (agent_of_key name) as [a|] eqn:Hk.
  - rewrite (agent_map_Some X cb name a Hk). msteps.
    rewrite run_agent_result. msteps. cbn [set_response set_agent_responses
      agent_responses user_query user_context].
    rewrite dict_lookup_set_same. msteps.
    destruct (response_summary _) as [[]|e]; msteps; [reflexivity|].
    now rewrite dict_set_set.
  - rewrite (agent_map_None X cb name Hk). msteps. reflexivity.
Qed.

Lemma run_one_agent_calls (X : Externals) (cb : bool) (state : AgentState)
    (total i : nat) (name : string) (shared responses : pydict) :
  agent_calls
    (events (run_one_agent X cb state total i (PStr name) shared responses))
  = if known_agent name then [name] else [].
Proof.
  unfold run_one_agent, known_agent. cbn [py_hashable negb].
  destruct (agent_of_key name) as [a|] eqn:Hk.
  - rewrite (agent_map_Some X cb name a Hk). msteps.
    rewrite run_agent_result. msteps. cbn [set_response set_agent_responses
      agent_responses user_query user_context].
    rewrite dict_lookup_set_same. msteps.
    repeat rewrite ?agent_calls_app, ?agent_calls_progress, ?run_agent_calls.
    rewrite (agent_of_key_Some name a Hk).
    destruct (response_summary _) as [[]|e]; msteps;
      repeat rewrite ?agent_calls_app, ?agent_calls_progress; reflexivity.
  - rewrite (agent_map_None X cb name Hk). msteps.
    repeat rewrite ?agent_calls_app, ?agent_calls_progress; reflexivity.
Qed.

Lemma run_agents_loop_result (X : Externals) (cb : bool) (state : AgentState)
    (total : nat) (names : list string) :
  forall (i : nat) (shared responses : pydict),
    result (run_agents_loop X cb state total i (map PStr names) shared responses)
    = Ok (fold_left (share X state) names shared,
          fold_left (collect X state) names responses).
Proof.
  induction names as [|name names IH]; intros i shared responses;
    cbn [run_agents_loop map fold_left].
  - reflexivity.
  - msteps. rewrite run_one_agent_result. msteps. cbn [fst snd]. apply IH.
Qed.

Lemma run_agents_loop_calls (X : Externals) (cb : bool) (state : AgentState)
    (total : nat) (names : list string) :
  forall (i : nat) (shared responses : pydict),
    agent_calls
      (events (run_agents_loop X cb state total i (map PStr names)
                 shared responses))
    = filter known_agent names.
Proof.
  induction names as [|name names IH]; intros i shared responses;
    cbn [run_agents_loop map filter].
  - reflexivity.
  - msteps. rewrite agent_calls_app, run_one_agent_calls, run_one_agent_result.
    cbn [fst snd]. rewrite IH. now destruct (known_agent name).
Qed.

Lemma chars_length (s : string) : List.length (chars s) = String.length s.
Proof. induction s; cbn; congruence. Qed.

Lemma py_iter_len (v : pyval) (items : list pyval) :
  py_iter v = Ok items -> py_len v = Ok (List.length items).
Proof.
  destruct v; cbn; intros H; inversion H; subst; clear H.
  - now rewrite chars_length.
  - reflexivity.
  - now rewrite length_map.
Qed.

Lemma run_multiple_agents_result (X : Externals) (cb : bool)
    (state : AgentState) (names : list string) :
  py_iter (agents_to_run state) = Ok (map PStr names) ->
  result (run_multiple_agents X cb state)
  = Ok (set_agent_responses (fold_left (collect X state) names []) state).
Proof.
  intros Hplan. unfold run_multiple_agents. msteps.
  rewrite (py_iter_len _ _ Hplan), Hplan. msteps.
  rewrite run_agents_loop_result. msteps. reflexivity.
Qed.

Lemma run_multiple_agents_calls (X : Externals) (cb : bool)
    (state : AgentState) (names : list string) :
  py_iter (agents_to_run state) = Ok (map PStr names) ->
  agent_calls (events (run_multiple_agents X cb state))
  = filter known_agent names.
Proof.
  intros Hplan. unfold run_multiple_agents. msteps.
  rewrite (py_iter_len _ _ Hplan), Hplan. msteps.
  rewrite run_agents_loop_result. msteps.
  repeat rewrite ?agent_calls_app, ?agent_calls_progress.
  rewrite run_agents_loop_calls. cbn. now rewrite app_nil_r.
Qed.

(** *** What the runner has collected *)

Lemma known_agent_key (a : agent) : known_agent (agent_key a) = true.
Proof. unfold known_agent. now rewrite agent_of_key_key. Qed.

Lemma collect_keys (X : Externals) (state : AgentState) (names : list string) :
  forall (d : pydict) (k : string),
    In k (dict_keys (fold_left (collect X state) names d))
    <-> In k (dict_keys d) \/ (In k names /\ known_agent k = true).
Proof.
  induction names as [|name names IH]; intros d k; cbn [fold_left].
  - cbn. intuition.
  - rewrite IH. unfold collect, known_agent.
    destruct (agent_of_key name) as [a|] eqn:Hk.
    + rewrite dict_keys_set. apply agent_of_key_Some in Hk. subst name.
      cbn [In]. split.
      * intros [[-> | Hin] | [Hin Hknown]]; auto.
        right. split; auto. now rewrite agent_of_key_key.
      * intros [Hin | [[<- | Hin] Hknown]]; auto.
    + cbn [In]. split.
      * intros [Hin | [Hin Hknown]]; auto.
      * intros [Hin | [[<- | Hin] Hknown]]; auto.
        rewrite Hk in Hknown. discriminate.
Qed.

Lemma collect_NoDup (X : Externals) (state : AgentState) (names : list string) :
  forall d : pydict,
    NoDup (dict_keys d) ->
    NoDup (dict_keys (fold_left (collect X state) names d)).
Proof.
  induction names as [|name names IH]; intros d Hnd; cbn [fold_left]; auto.
  apply IH. unfold collect. destruct (agent_of_key name); auto.
  now apply dict_keys_set_NoDup.
Qed.



(** *** Every stored result can be serialised *)

Lemma json_dumps_check_dict (d : pydict) :
  serialisable d -> json_dumps_check (PDict d) = Ok tt.
Proof.
  unfold serialisable. cbn. induction 1 as [|[k v] d Hv _ IH].
  - reflexivity.
  - cbn in Hv. rewrite Hv. cbn. exact IH.
Qed.

Lemma serialisable_set (k : string) (v : pyval) (d : pydict) :
  json_dumps_check v = Ok tt -> serialisable d -> serialisable (dict_set k v d).
Proof.
  unfold serialisable. intros Hv. induction 1 as [|[k' v'] d Hv' Hd IH]; cbn.
  - constructor; [exact Hv|constructor].
  - destruct (String.eqb k k'); constructor; auto.
Qed.

Lemma stored_result_dumps (X : Externals) (a : agent) (query : string)
    (context : pyval) :
  json_dumps_check (stored_result X a query context) = Ok tt.
Proof.
  unfold stored_result.
  destruct (agent_process X (agent_key a) query context) as [r|e].
  - destruct (json_dumps_check r) as [[]|e] eqn:Hr; [exact Hr|].
    apply agent_error_response_dumps.
  - apply agent_error_response_dumps.
Qed.

Lemma collected_result_dumps (X : Externals) (a : agent) (query : string)
    (context : pyval) :
  json_dumps_check (collected_result X a query context) = Ok tt.
Proof.
  unfold collected_result. cbv zeta.
  destruct (response_summary _); [apply stored_result_dumps|reflexivity].
Qed.

Lemma collect_serialisable (X : Externals) (state : AgentState)
    (names : list string) :
  forall d : pydict,
    serialisable d -> serialisable (fold_left (collect X state) names d).
Proof.
  induction names as [|name names IH]; intros d Hd; cbn [fold_left]; auto.
  apply IH. unfold collect. destruct (agent_of_key name); auto.
  apply serialisable_set; auto. apply collected_result_dumps.
Qed.

(** ** The plan that classification leaves *)

Lemma plan_names_strings (plan : pyval) (names : list string) :
  py_iter plan = Ok (map PStr names) -> plan_names plan = names.
Proof.
  unfold plan_names. intros ->.
  induction names as [|name names IH]; cbn; congruence.
Qed.

Lemma display_names_inv (X : Externals) (items : list pyval) :
  forall ds, display_names X items = Ok ds ->
  exists names, items = map PStr names.
Proof.
  induction items as [|x items IH]; intros ds H.
  - now exists [].
  - destruct x; cbn in H; try discriminate H.
    destruct (display_names X items) as [ds'|e]; [|discriminate H].
    destruct (IH ds' eq_refl) as [names ->]. now exists (s :: names).
Qed.

Lemma single_item_is_intent (needed intent : pyval) (names : list string) :
  py_iter needed = Ok (map PStr names) ->
  List.length names = 1%nat ->
  py_getitem0 needed = Ok intent ->
  exists name, names = [name] /\ intent = PStr name.
Proof.
  intros Hiter Hlen Hget.
  destruct names as [|name [|]]; try discriminate Hlen.
  exists name. split; [reflexivity|].
  destruct needed; cbn in Hiter, Hget; try discriminate Hiter.
  - destruct s as [|c s]; [discriminate Hiter|].
    cbn in Hiter. inversion Hiter. congruence.
  - destruct items as [|x items]; [discriminate Hiter|].
    inversion Hiter. congruence.
  - discriminate Hget.
Qed.

Lemma multiple_is_no_agent (a : agent) : PStr "multiple" <> PStr (agent_key a).
Proof. destruct a; discriminate. Qed.

Lemma classify_state_plan (X : Externals) (state : AgentState) :
  agent_responses (classify_state X state) = []
  /\ exists names,
       py_iter (agents_to_run (classify_state X state)) = Ok (map PStr names)
       /\ forall a,
            intent_classification (classify_state X state) = PStr (agent_key a)
            -> names = [agent_key a].
Proof.
  unfold classify_state.
  destruct (classify_plan X (user_query state)) as [[[intent needed] c]|e]
    eqn:Hplan.
  2:{ split; [reflexivity|]. exists ["weather"; "soil"].
      split; [reflexivity|]. intros a H. cbn in H.
      now apply multiple_is_no_agent in H. }
  split; [reflexivity|]. cbn [classified agents_to_run intent_classification
    set_agent_responses set_confidence_score set_agents_to_run
    set_intent_classification].
  unfold classify_plan in Hplan.
  destruct (generate_content X _) as [text|]; [|discriminate Hplan].
  cbn [obind] in Hplan.
  destruct (json_loads X text) as [res|]; [|discriminate Hplan].
  cbn [obind] in Hplan.
  destruct (py_get res "agents_needed" (PList [])) as [needed'|];
    [|discriminate Hplan].
  cbn [obind] in Hplan.
  destruct (py_len needed') as [n|] eqn:Hlen; [|discriminate Hplan].
  cbn [obind] in Hplan.
  destruct (if Nat.eqb n 1 then py_getitem0 needed' else Ok (PStr "multiple"))
    as [intent'|] eqn:Hintent; [|discriminate Hplan].
  cbn [obind] in Hplan.
  destruct (obind (py_get res "confidence" (PFloat float_0_5)) (py_float X))
    as [c'|]; [|discriminate Hplan].
  cbn [obind] in Hplan.
  destruct (py_iter needed') as [items|] eqn:Hiter; [|discriminate Hplan].
  cbn [obind] in Hplan.
  destruct (display_names X items) as [ds|] eqn:Hds; [|discriminate Hplan].
  cbn [obind] in Hplan. inversion Hplan; subst intent' needed' c'. clear Hplan.
  destruct (display_names_inv X items ds Hds) as [names ->].
  exists names. split; [exact Hiter|]. intros a Ha. subst intent.
  rewrite (py_iter_len _ _ Hiter), length_map in Hlen.
  inversion Hlen; subst n. clear Hlen.
  destruct (Nat.eqb (List.length names) 1) eqn:Hone.
  - apply Nat.eqb_eq in Hone.
    destruct (single_item_is_intent _ _ _ Hiter Hone Hintent)
      as (name & -> & Hname).
    congruence.
  - exfalso. apply (multiple_is_no_agent a). congruence.
Qed.

(** ** The route *)

Lemma existsb_map_find {A B} (p : B -> bool) (g : A -> B) (l : list A) :
  existsb p (map g l)
  = match find (fun x => p (g x)) l with Some _ => true | None => false end.
Proof.
  induction l as [|x l IH]; cbn; [reflexivity|].
  destruct (p (g x)); [reflexivity|exact IH].
Qed.

Lemma route_to_agents_cases (state : AgentState) :
  (exists a, intent_classification state = PStr (agent_key a)
             /\ route_to_agents state = agent_key a)
  \/ (route_to_agents state = "multiple"
      /\ forall a, intent_classification state <> PStr (agent_key a)).
Proof.
  unfold route_to_agents.
  destruct (intent_classification state) as [| | | |intent| | |];
    try (right; split; [reflexivity|intros a; discriminate]).
  change ["market"; "satellite"; "weather"; "pest"; "soil"; "search"]
    with (map agent_key all_agents).
  rewrite existsb_map_find. fold (agent_of_key intent).
  destruct (agent_of_key intent) as [a|] eqn:Hk.
  - left. exists a. apply agent_of_key_Some in Hk. now subst intent.
  - right. split; [reflexivity|]. intros a Ha. inversion Ha; subst intent.
    rewrite agent_of_key_key in Hk. discriminate Hk.
Qed.

Lemma intent_path_map_route (state : AgentState) :
  intent_path_map (route_to_agents state) = Ok (Goto (stage_node state)).
Proof.
  unfold stage_node.
  destruct (route_to_agents_cases state) as [(a & _ & ->) | [-> _]].
  - destruct a; reflexivity.
  - reflexivity.
Qed.

Lemma next_node_stage (s1 s2 : AgentState) :
  next_node (stage_node s1) s2 = Ok (Goto decision_llm).
Proof.
  unfold stage_node. destruct (agent_of_key _) as [[]|]; reflexivity.
Qed.

Lemma node_action_agent (X : Externals) (cb : bool) (a : agent) :
  node_action X cb (agent_node a) = run_agent X cb a.
Proof. destruct a; reflexivity. Qed.

Lemma stage_result (X : Externals) (cb : bool) (state : AgentState)
    (names : list string) :
  py_iter (agents_to_run state) = Ok (map PStr names) ->
  result (node_action X cb (stage_node state) state)
  = Ok (set_agent_responses (stage_responses X state) state).
Proof.
  intros Hplan. unfold stage_node, stage_responses.
  destruct (agent_of_key (route_to_agents state)) as [a|].
  - rewrite node_action_agent. apply run_agent_result.
  - cbn [node_action]. rewrite (plan_names_strings _ _ Hplan).
    now apply run_multiple_agents_result.
Qed.

Lemma stage_calls (X : Externals) (cb : bool) (state : AgentState)
    (names : list string) :
  py_iter (agents_to_run state) = Ok (map PStr names) ->
  (forall a, intent_classification state = PStr (agent_key a) ->
             names = [agent_key a]) ->
  agent_calls (events (node_action X cb (stage_node state) state))
  = filter known_agent names.
Proof.
  intros Hplan Hsingle. unfold stage_node.
  destruct (route_to_agents_cases state) as [(a & Ha & ->) | [-> _]].
  - rewrite agent_of_key_key, node_action_agent, run_agent_calls.
    rewrite (Hsingle a Ha). cbn. now rewrite known_agent_key.
  - cbn [agent_of_key]. now apply run_multiple_agents_calls.
Qed.

(** ** Synthesis, verification and the gate *)

Lemma make_decision_result (X : Externals) (cb : bool) (state : AgentState) :
  serialisable (agent_responses state) ->
  result (make_decision X cb state)
  = Ok (set_final_response (decision_text X state) state).
Proof.
  intros Hser. unfold make_decision, decision_text, model_generate_content.
  destruct (agent_responses state) as [|kv d] eqn:Hd; msteps; [reflexivity|].
  rewrite (json_dumps_check_dict _ Hser). msteps.
  destruct (generate_content X _); msteps; reflexivity.
Qed.

Lemma verify_response_result (X : Externals) (cb : bool) (state : AgentState) :
  result (verify_response X cb state)
  = Ok (set_confidence_score (verified_score X state) state).
Proof.
  unfold verify_response, verified_score, model_generate_content. msteps.
  destruct (generate_content X _) as [text|e]; msteps; [|reflexivity].
  destruct (float_of_str X (str_strip X text)); msteps; reflexivity.
Qed.

Lemma send_notifications_result (X : Externals) (cb : bool)
    (state : AgentState) :
  result (send_notifications X cb state) = Ok state.
Proof.
  unfold send_notifications. msteps.
  destruct (process_notifications X _ _) as [[]|e]; msteps; reflexivity.
Qed.

Lemma next_node_gate (state : AgentState) :
  next_node check_confidence_node state
  = Ok (if require_human_feedback state then END else Goto notification_agent).
Proof.
  cbn. unfold confidence_check. now destruct (require_human_feedback state).
Qed.

(** ** The whole run of the graph *)

Lemma run_from_step (X : Externals) (cb : bool) (fuel : nat) (n : node)
    (s s' : AgentState) (t : target) :
  result (node_action X cb n s) = Ok s' ->
  next_node n s' = Ok t ->
  let rest := match t with
              | END => ret s'
              | Goto n' => run_from X cb fuel n' s'
              end in
  run_from X cb (S fuel) n s
  = (result rest, (events (node_action X cb n s) ++ events rest)%list).
Proof.
  intros Hnode Hnext rest. cbn [run_from].
  rewrite (M_eta (node_action X cb n s)), Hnode. cbn [bind lift].
  rewrite Hnext. cbn. subst rest. destruct t as [n'|].
  - destruct (run_from X cb fuel n' s'); reflexivity.
  - reflexivity.
Qed.

Lemma stage_responses_serialisable (X : Externals) (state : AgentState) :
  agent_responses state = [] -> serialisable (stage_responses X state).
Proof.
  intros Hempty. unfold stage_responses.
  destruct (agent_of_key _) as [a|].
  - apply serialisable_set; [apply stored_result_dumps|].
    rewrite Hempty. constructor.
  - apply collect_serialisable. constructor.
Qed.

Theorem graph_invoke_run (X : Externals) (cb : bool) (s0 : AgentState) :
  graph_invoke X cb s0
  = (Ok (final_state X s0),
     (events (classify_intent X cb s0)
      ++ events (node_action X cb (stage_node (classify_state X s0))
                   (classify_state X s0))
      ++ events (make_decision X cb (staged X s0))
      ++ events (verify_response X cb (decided X s0))
      ++ if require_human_feedback (final_state X s0) then []
         else events (send_notifications X cb (final_state X s0)))%list).
Proof.
  destruct (classify_state_plan X s0) as (Hempty & names & Hplan & _).
  unfold graph_invoke, recursion_limit.
  rewrite (run_from_step X cb _ classify_intent_node s0 (classify_state X s0) _
             (classify_intent_result X cb s0)
             (intent_path_map_route (classify_state X s0))).
  fold (classify_state X s0). cbv zeta.
  rewrite (run_from_step X cb _ (stage_node (classify_state X s0)) _ _ _
             (stage_result X cb _ names Hplan)
             (next_node_stage _ _)).
  fold (staged X s0). cbv zeta.
  rewrite (run_from_step X cb _ decision_llm _ _ _
             (make_decision_result X cb (staged X s0)
                (stage_responses_serialisable X _ Hempty))
             eq_refl).
  fold (decided X s0). cbv zeta.
  rewrite (run_from_step X cb _ verifier_agent _ _ _
             (verify_response_result X cb (decided X s0)) eq_refl).
  fold (verified X s0). cbv zeta.
  rewrite (run_from_step X cb _ check_confidence_node (verified X s0) _ _
             eq_refl (next_node_gate _)).
  cbv zeta.
  change (set_require_human_feedback
            (float_lt (confidence_score (verified X s0)) float_0_6)
            (verified X s0)) with (final_state X s0).
  destruct (require_human_feedback (final_state X s0)) eqn:Hflag.
  - cbn [result events fst snd ret check_confidence node_action app].
    reflexivity.
  - rewrite (run_from_step X cb _ notification_agent _ _ END
               (send_notifications_result X cb _) eq_refl).
    cbn [result events fst snd ret check_confidence node_action app].
    now rewrite app_nil_r.
Qed.

(** ** What each stage emits *)

Lemma forallb_progress (p : event -> bool) (cb : bool) (msg k : string) :
  p (Progress msg k) = true ->
  forallb p (if cb then [Progress msg k] else []) = true.
Proof. intros H. destruct cb; cbn; [now rewrite H|reflexivity]. Qed.

Ltac shape :=
  repeat rewrite ?forallb_app, ?forallb_progress by reflexivity;
  cbn [forallb andb chatter agent_work database_work];
  try reflexivity.

Lemma classify_intent_chatter (X : Externals) (cb : bool) (s : AgentState) :
  forallb chatter (events (classify_intent X cb s)) = true.
Proof.
  unfold classify_intent, model_generate_content. msteps.
  destruct (generate_content X _) as [text|e]; msteps; [|shape].
  destruct (json_loads X text) as [res|e]; msteps; [|shape].
  destruct (py_get res "agents_needed" (PList [])) as [needed|e]; msteps;
    [|shape].
  destruct (py_len needed) as [n|e]; msteps; [|shape].
  assert (Hev : events (if Nat.eqb n 1 then lift (py_getitem0 needed)
                        else ret (PStr "multiple")) = []).
  { now destruct (Nat.eqb n 1). }
  rewrite Hev.
  destruct (result (if Nat.eqb n 1 then lift (py_getitem0 needed)
                    else ret (PStr "multiple"))) as [intent|e];
    msteps; [|shape].
  destruct (obind (py_get res "confidence" (PFloat float_0_5)) (py_float X))
    as [c|e]; msteps; [|shape].
  destruct (py_iter needed) as [items|e]; msteps; [|shape].
  destruct (display_names X items) as [ds|e]; msteps; shape.
Qed.

Lemma make_decision_chatter (X : Externals) (cb : bool) (s : AgentState) :
  forallb chatter (events (make_decision X cb s)) = true.
Proof.
  unfold make_decision, model_generate_content.
  destruct (agent_responses s) as [|kv d]; msteps; [shape|].
  destruct (json_dumps_check (PDict (kv :: d))) as [[]|e]; msteps; [|shape].
  destruct (generate_content X _); msteps; shape.
Qed.

Lemma verify_response_chatter (X : Externals) (cb : bool) (s : AgentState) :
  forallb chatter (events (verify_response X cb s)) = true.
Proof.
  unfold verify_response, model_generate_content. msteps.
  destruct (generate_content X _) as [text|e]; msteps; [|shape].
  destruct (float_of_str X (str_strip X text)); msteps; shape.
Qed.

Lemma run_agent_work (X : Externals) (cb : bool) (a : agent) (s : AgentState) :
  forallb agent_work (events (run_agent X cb a s)) = true.
Proof.
  unfold run_agent. msteps.
  destruct (agent_process X _ _ _) as [r|e]; msteps.
  - destruct (json_dumps_check r) as [[]|e]; msteps;
      rewrite ?agent_error_response_dumps; shape.
  - rewrite agent_error_response_dumps. shape.
Qed.

Lemma run_one_agent_work (X : Externals) (cb : bool) (state : AgentState)
    (total i : nat) (name : string) (shared responses : pydict) :
  forallb agent_work
    (events (run_one_agent X cb state total i (PStr name) shared responses))
  = true.
Proof.
  unfold run_one_agent. cbn [py_hashable negb].
  destruct (agent_of_key name) as [a|] eqn:Hk.
  - rewrite (agent_map_Some X cb name a Hk). msteps.
    rewrite run_agent_result. msteps. cbn [set_response set_agent_responses
      agent_responses user_query user_context].
    rewrite dict_lookup_set_same. msteps.
    destruct (response_summary _) as [[]|e]; msteps;
      repeat rewrite ?forallb_app, ?run_agent_work; shape.
  - rewrite (agent_map_None X cb name Hk). msteps. shape.
Qed.

Lemma run_agents_loop_work (X : Externals) (cb : bool) (state : AgentState)
    (total : nat) (names : list string) :
  forall (i : nat) (shared responses : pydict),
    forallb agent_work
      (events (run_agents_loop X cb state total i (map PStr names)
                 shared responses)) = true.
Proof.
  induction names as [|name names IH]; intros i shared responses;
    cbn [run_agents_loop map].
  - reflexivity.
  - msteps. rewrite forallb_app, run_one_agent_work, run_one_agent_result.
    cbn [fst snd andb]. apply IH.
Qed.

Lemma stage_work (X : Externals) (cb : bool) (state : AgentState)
    (names : list string) :
  py_iter (agents_to_run state) = Ok (map PStr names) ->
  forallb agent_work (events (node_action X cb (stage_node state) state))
  = true.
Proof.
  intros Hplan. unfold stage_node.
  destruct (agent_of_key (route_to_agents state)) as [a|].
  - rewrite node_action_agent. apply run_agent_work.
  - cbn [node_action]. unfold run_multiple_agents. msteps.
    rewrite (py_iter_len _ _ Hplan), Hplan. msteps.
    rewrite run_agents_loop_result. msteps.
    repeat rewrite ?forallb_app, ?run_agents_loop_work. shape.
Qed.

Lemma save_query_result (X : Externals) (query : string) (context : pyval)
    (r : AgentState) :
  result (_save_query_safely X query context r) = Ok tt.
Proof.
  unfold _save_query_safely. msteps.
  destruct (py_get context "user_id" PNone) as [uid|e]; msteps; [|reflexivity].
  destruct (py_truthy uid); cbn [negb]; msteps; [|reflexivity].
  destruct (user_exists X uid) as [[]|e]; cbn [negb]; msteps; try reflexivity.
  now destruct (agent_query_create X _ _) as [[]|e].
Qed.

Lemma save_query_database_work (X : Externals) (query : string)
    (context : pyval) (r : AgentState) :
  forallb database_work (events (_save_query_safely X query context r)) = true.
Proof.
  unfold _save_query_safely. msteps.
  destruct (py_get context "user_id" PNone) as [uid|e]; msteps; [|shape].
  destruct (py_truthy uid); cbn [negb]; msteps; [|shape].
  destruct (user_exists X uid) as [[]|e]; cbn [negb]; msteps; shape.
  destruct (agent_query_create X _ _) as [[]|e]; shape.
Qed.

(** ** The whole run of [process_query] *)

Lemma graph_invoke_result (X : Externals) (cb : bool) (s0 : AgentState) :
  result (graph_invoke X cb s0) = Ok (final_state X s0).
Proof. now rewrite graph_invoke_run. Qed.

Lemma result_try_finally {A} (m : M A) (f : M unit) :
  result (try_finally m f)
  = match result f with Ok _ => result m | Raise e => Raise e end.
Proof.
  unfold result, try_finally. destruct m as [r t], f as [[[]|e] t']; reflexivity.
Qed.

Lemma events_try_finally {A} (m : M A) (f : M unit) :
  events (try_finally m f) = (events m ++ events f)%list.
Proof.
  unfold events, try_finally. destruct m as [r t], f as [[[]|e] t']; reflexivity.
Qed.

Theorem process_query_run (X : Externals) (cb : bool) (query : string)
    (context : pyval) :
  process_query X cb query context
  = (Ok (final_state X (initial_state query context)),
     (KeepAliveStarted
        :: (events (graph_invoke X cb (initial_state query context))
            ++ events (_save_query_safely X query context
                         (final_state X (initial_state query context))))
        ++ [KeepAliveStopped])%list).
Proof.
  rewrite (M_eta (process_query X cb query context)).
  unfold process_query, _start_keep_alive, _stop_keep_alive.
  rewrite result_bind, events_bind, result_try_finally, events_try_finally.
  msteps. rewrite graph_invoke_result. msteps.
  rewrite save_query_result. msteps.
  cbn [app]. now rewrite app_nil_r.
Qed.

Lemma send_notifications_work (X : Externals) (cb : bool) (s : AgentState) :
  forallb notification_work (events (send_notifications X cb s)) = true.
Proof.
  unfold send_notifications. msteps.
  destruct (process_notifications X _ _) as [[]|e]; msteps;
    repeat rewrite ?forallb_app, ?forallb_progress by reflexivity; reflexivity.
Qed.

Lemma send_notifications_calls (X : Externals) (cb : bool) (s : AgentState) :
  In (ProcessNotifications (final_response s) (user_context s))
    (events (send_notifications X cb s)).
Proof.
  unfold send_notifications. msteps.
  apply in_or_app. right. apply in_or_app. left. apply in_or_app. left.
  now left.
Qed.

Lemma no_agent_calls (p : event -> bool) (t : trace) :
  (forall k q c, p (AgentProcess k q c) = false) ->
  forallb p t = true -> agent_calls t = [].
Proof.
  intros Hp. induction t as [|e t IH]; cbn [forallb]; [reflexivity|].
  intros H. apply andb_prop in H. destruct H as [He Ht].
  unfold agent_calls. cbn [flat_map]. fold (agent_calls t).
  rewrite (IH Ht). destruct e; try reflexivity. now rewrite Hp in He.
Qed.

Lemma agent_calls_if (b : bool) (t : list event) :
  agent_calls t = [] -> agent_calls (if b then [] else t) = [].
Proof. now destruct b. Qed.

Lemma no_notification_calls (p : event -> bool) (t : trace) :
  (forall r c, p (ProcessNotifications r c) = false) ->
  forallb p t = true -> forall r c, ~ In (ProcessNotifications r c) t.
Proof.
  intros Hp H r c Hin. rewrite forallb_forall in H.
  specialize (H _ Hin). now rewrite Hp in H.
Qed.

(** The fields a run leaves as classification set them. *)
Lemma classify_state_query (X : Externals) (s : AgentState) :
  user_query (classify_state X s) = user_query s
  /\ user_context (classify_state X s) = user_context s.
Proof.
  unfold classify_state.
  now destruct (classify_plan X (user_query s)) as [[[i n] c]|e].
Qed.

Lemma process_query_agent_calls (X : Externals) (cb : bool) (query : string)
    (context : pyval) :
  agent_calls (events (process_query X cb query context))
  = filter known_agent
      (plan_names
         (agents_to_run (final_state X (initial_state query context)))).
Proof.
  rewrite process_query_run, graph_invoke_run. cbn [events snd].
  destruct (classify_state_plan X (initial_state query context))
    as (Hempty & names & Hplan & Hsingle).
  change (agents_to_run (final_state X (initial_state query context)))
    with (agents_to_run (classify_state X (initial_state query context))).
  rewrite (plan_names_strings _ _ Hplan).
  change (KeepAliveStarted :: ?t ++ [KeepAliveStopped])%list
    with ([KeepAliveStarted] ++ t ++ [KeepAliveStopped])%list.
  repeat rewrite agent_calls_app.
  rewrite (stage_calls X cb _ names Hplan Hsingle).
  rewrite (no_agent_calls chatter _ (fun _ _ _ => eq_refl)
             (classify_intent_chatter X cb _)).
  rewrite (no_agent_calls chatter _ (fun _ _ _ => eq_refl)
             (make_decision_chatter X cb _)).
  rewrite (no_agent_calls chatter _ (fun _ _ _ => eq_refl)
             (verify_response_chatter X cb _)).
  rewrite (no_agent_calls database_work _ (fun _ _ _ => eq_refl)
             (save_query_database_work X _ _ _)).
  rewrite agent_calls_if
    by apply (no_agent_calls notification_work _ (fun _ _ _ => eq_refl)
                (send_notifications_work X cb _)).
  cbn. now rewrite !app_nil_r.
Qed.


(** C2.  Every run reaches the confidence gate, and in its final state
    [require_human_feedback] is true if and only if the verified confidence
    score is strictly below 0.6.  When it is true the notification agent is
    never called in the run; when it is false it is called, with the final
    answer. *)
Theorem human_feedback_iff_low_confidence
    (X : Externals) (cb : bool) (query : string) (context : pyval) :
  exists final,
    result (process_query X cb query context) = Ok final
    /\ (require_human_feedback final = true
        <-> float_lt (confidence_score final) float_0_6 = true)
    /\ (require_human_feedback final = true ->
        forall r c,
          ~ In (ProcessNotifications r c)
              (events (process_query X cb query context)))
    /\ (require_human_feedback final = false ->
        In (ProcessNotifications (final_response final) context)
          (events (process_query X cb query context))).
Proof.
  exists (final_state X (initial_state query context)).
  rewrite process_query_run, graph_invoke_run. cbn [result events fst snd].
  split; [reflexivity|]. split; [reflexivity|].
  destruct (classify_state_plan X (initial_state query context))
    as (_ & names & Hplan & _).
  split.
  - intros Hflag r c Hin. rewrite Hflag in Hin.
    destruct Hin as [Hin | Hin]; [discriminate Hin|].
    repeat (apply in_app_or in Hin; destruct Hin as [Hin | Hin]).
    + revert Hin. apply (no_notification_calls chatter); [reflexivity|].
      apply classify_intent_chatter.
    + revert Hin. apply (no_notification_calls agent_work); [reflexivity|].
      apply (stage_work X cb _ names Hplan).
    + revert Hin. apply (no_notification_calls chatter); [reflexivity|].
      apply make_decision_chatter.
    + revert Hin. apply (no_notification_calls chatter); [reflexivity|].
      apply verify_response_chatter.
    + destruct Hin.
    + revert Hin. apply (no_notification_calls database_work); [reflexivity|].
      apply save_query_database_work.
    + destruct Hin as [Hin | []]. discriminate Hin.
  - intros Hflag. rewrite Hflag. right.
    apply in_or_app. left. apply in_or_app. left.
    do 4 (apply in_or_app; right).
    pose proof (send_notifications_calls X cb
                  (final_state X (initial_state query context))) as Hcall.
    assert (Hctx : user_context (final_state X (initial_state query context))
                   = context).
    { change (user_context (final_state X (initial_state query context)))
        with (user_context (classify_state X (initial_state query context))).
      now rewrite (proj2 (classify_state_query X _)). }
    now rewrite Hctx in Hcall.
Qed.





(** C9, as amended.  When the classification reply is valid JSON, an object
    whose [agents_needed] is the empty list and whose [confidence], if
    present, converts to a float, the run returns with the intent label
    "multiple", no agent called, an empty result map, and the fixed apology as
    the final answer. *)
Theorem empty_plan_degrades_to_the_apology
    (X : Externals) (cb : bool) (query : string) (context : pyval)
    (text : string) (entries : pydict) (c : pyfloat) :
  generate_content X (ClassifyPrompt query) = Ok text ->
  json_loads X text = Ok (PDict entries) ->
  dict_lookup "agents_needed" entries = Some (PList []) ->
  py_float X match dict_lookup "confidence" entries with
             | Some v => v
             | None => PFloat float_0_5
             end = Ok c ->
  exists final,
    result (process_query X cb query context) = Ok final
    /\ intent_classification final = PStr "multiple"
    /\ agent_calls (events (process_query X cb query context)) = []
    /\ agent_responses final = []
    /\ final_response final = the_final_apology.
Proof.
  intros Hgen Hjson Hneeded Hconf.
  exists (final_state X (initial_state query context)).
  split; [now rewrite process_query_run|].
  assert (Hplan : classify_plan X query = Ok (PStr "multiple", PList [], c)).
  { apply (classify_plan_schema X query text entries [] c Hgen Hjson);
      [now rewrite Hneeded|exact Hconf]. }
  assert (Hs1 : classify_state X (initial_state query context)
                = classified (PStr "multiple") (PList []) c
                    (initial_state query context)).
  { unfold classify_state. cbn [user_query initial_state]. now rewrite Hplan. }
  rewrite process_query_agent_calls.
  unfold final_state, gated, verified, decided, staged. cbv zeta.
  rewrite Hs1. repeat split.
Qed.

(** ** The plan on a well-formed reply *)

(** The keys the agent stage leaves, for a plan of strings. *)
Lemma stage_responses_keys (X : Externals) (state : AgentState)
    (names : list string) :
  agent_responses state = [] ->
  py_iter (agents_to_run state) = Ok (map PStr names) ->
  (forall a, intent_classification state = PStr (agent_key a) ->
             names = [agent_key a]) ->
  (forall k, In k (dict_keys (stage_responses X state))
             <-> In k names /\ known_agent k = true)
  /\ NoDup (dict_keys (stage_responses X state)).
Proof.
  intros Hempty Hplan Hsingle. unfold stage_responses.
  destruct (route_to_agents_cases state) as [(a & Ha & ->) | [-> _]].
  - rewrite agent_of_key_key, Hempty, (Hsingle a Ha). cbn. split.
    + intros k. split.
      * intros [<- | []]. split; [now left|apply known_agent_key].
      * intros [[<- | []] _]. now left.
    + constructor; [intros []|constructor].
  - change (agent_of_key "multiple") with (@None agent). cbv iota.
    rewrite (plan_names_strings _ _ Hplan). split.
    + intros k. rewrite collect_keys. cbn. tauto.
    + apply collect_NoDup. constructor.
Qed.

(** C7, as amended.  When the classification reply is valid JSON of the
    expected shape (an object whose [agents_needed], if present, is a list of
    strings, and whose [confidence], if present, converts to a float),
    [classify_intent] stores that list as it stands: order, duplicates and
    unknown names are kept, and the list is empty when the field is absent.
    The intent label is the list's only element when it has exactly one, and
    "multiple" otherwise.  The stored confidence is the value [float] gives,
    with no clamp, and 0.5 when the field is absent.  In the run that
    follows, the agents called are the names of the list that belong to the
    closed set, in the order of the list, a repeated name being called
    again; a name outside the set is never called; and the result map ends
    with exactly one entry for each name called. *)
Theorem classify_intent_on_valid_json
    (X : Externals) (cb : bool) (query : string) (context : pyval)
    (text : string) (entries : pydict) (needed : list string) (c : pyfloat) :
  generate_content X (ClassifyPrompt query) = Ok text ->
  json_loads X text = Ok (PDict entries) ->
  match dict_lookup "agents_needed" entries with
  | Some v => v
  | None => PList []
  end = PList (map PStr needed) ->
  py_float X match dict_lookup "confidence" entries with
             | Some v => v
             | None => PFloat float_0_5
             end = Ok c ->
  (forall state,
     user_query state = query ->
     exists state',
       result (classify_intent X cb state) = Ok state'
       /\ agents_to_run state' = PList (map PStr needed)
       /\ intent_classification state'
          = PStr match needed with [name] => name | _ => "multiple" end
       /\ confidence_score state' = c
       /\ (dict_lookup "confidence" entries = None ->
           confidence_score state' = float_0_5))
  /\ exists final,
       result (process_query X cb query context) = Ok final
       /\ agents_to_run final = PList (map PStr needed)
       /\ intent_classification final
          = PStr match needed with [name] => name | _ => "multiple" end
       /\ agent_calls (events (process_query X cb query context))
          = filter known_agent needed
       /\ (forall k,
             In k (dict_keys (agent_responses final))
             <-> In k needed /\ known_agent k = true)
       /\ NoDup (dict_keys (agent_responses final)).
Proof.
  intros Hgen Hjson Hneeded Hconf.
  pose proof (classify_plan_schema X query text entries needed c
                Hgen Hjson Hneeded Hconf) as Hplan.
  split.
  - intros state Hquery. rewrite classify_intent_result, Hquery, Hplan.
    eexists; split; [reflexivity|]. cbn. repeat split.
    intros Habsent. rewrite Habsent in Hconf. cbn in Hconf. congruence.
  - exists (final_state X (initial_state query context)).
    split; [now rewrite process_query_run|].
    rewrite process_query_agent_calls.
    set (s1 := classify_state X (initial_state query context)).
    assert (Hs1 : s1 = classified
                         (PStr match needed with
                               | [name] => name
                               | _ => "multiple"
                               end)
                         (PList (map PStr needed)) c
                         (initial_state query context)).
    { unfold s1, classify_state. cbn [user_query initial_state].
      now rewrite Hplan. }
    change (agent_responses (final_state X (initial_state query context)))
      with (stage_responses X s1).
    change (agents_to_run (final_state X (initial_state query context)))
      with (agents_to_run s1).
    change (intent_classification
              (final_state X (initial_state query context)))
      with (intent_classification s1).
    assert (Hiter : py_iter (agents_to_run s1) = Ok (map PStr needed)).
    { now rewrite Hs1. }
    rewrite (plan_names_strings _ _ Hiter).
    split; [now rewrite Hs1|]. split; [now rewrite Hs1|].
    split; [reflexivity|].
    apply stage_responses_keys; [now rewrite Hs1|exact Hiter|].
    intros a Ha. rewrite Hs1 in Ha. cbn in Ha.
    destruct needed as [|name [|]]; inversion Ha as [Hname].
    + now apply multiple_is_no_agent in Ha.
    + reflexivity.
    + now apply multiple_is_no_agent in Ha.
Qed.

(** ** The verifier's score *)

(** On a number the code's [min(max(c, 0.0), 1.0)] is the clamp. *)
Lemma clamp01_spec (c : pyfloat) :
  is_nan c = false -> clamp_to_unit_interval c = Some (clamp01 c).
Proof.
  intros Hnan.
  unfold clamp01, clamp_to_unit_interval, py_max, py_min. rewrite Hnan.
  destruct (float_lt c float_0_0); [reflexivity|].
  now destruct (float_lt float_1_0 c).
Qed.

Lemma clamp_in_unit_interval (c x : pyfloat) :
  clamp_to_unit_interval c = Some x -> in_unit_interval x = true.
Proof.
  unfold clamp_to_unit_interval.
  destruct (is_nan c) eqn:Hnan; [discriminate|].
  destruct (float_lt c float_0_0) eqn:Hlo; [now intros [= <-]|].
  destruct (float_lt float_1_0 c) eqn:Hhi; [now intros [= <-]|].
  intros [= <-]. unfold in_unit_interval. now rewrite Hnan, Hlo, Hhi.
Qed.

(** What holds of C6.  When the verifier's reply parses as a number, the
    stored score is that number clamped to [0,1]. *)
Lemma verifier_score_of_a_number
    (X : Externals) (cb : bool) (state : AgentState) (text : string)
    (c : pyfloat) :
  generate_content X
    (VerifyPrompt (user_query state) (final_response state)) = Ok text ->
  float_of_str X (str_strip X text) = Ok c ->
  is_nan c = false ->
  exists state',
    result (verify_response X cb state) = Ok state'
    /\ clamp_to_unit_interval c = Some (confidence_score state')
    /\ in_unit_interval (confidence_score state') = true.
Proof.
  intros Hgen Hparse Hnan.
  exists (set_confidence_score (clamp01 c) state).
  rewrite verify_response_result. unfold verified_score.
  rewrite Hgen, Hparse. split; [reflexivity|].
  cbn [confidence_score set_confidence_score].
  split; [now apply clamp01_spec|].
  apply (clamp_in_unit_interval c). now apply clamp01_spec.
Qed.

(** What holds of C6.  When the call raises or the reply does not parse, the
    stored score is exactly 0.7, on which the gate answers "sufficient" and
    routes to the notification agent. *)
Lemma verifier_failure_defaults_to_0_7
    (X : Externals) (cb : bool) (state : AgentState) :
  ((exists e,
      generate_content X
        (VerifyPrompt (user_query state) (final_response state))
      = Raise e)
   \/ (exists text e,
         generate_content X
           (VerifyPrompt (user_query state) (final_response state))
         = Ok text
         /\ float_of_str X (str_strip X text) = Raise e)) ->
  exists state' gate,
    result (verify_response X cb state) = Ok state'
    /\ confidence_score state' = float_0_7
    /\ result (check_confidence state') = Ok gate
    /\ require_human_feedback gate = false
    /\ confidence_check gate = "sufficient"
    /\ next_node check_confidence_node gate = Ok (Goto notification_agent).
Proof.
  intros Hfail.
  exists (set_confidence_score float_0_7 state),
         (gated (set_confidence_score float_0_7 state)).
  rewrite verify_response_result. unfold verified_score.
  destruct Hfail as [[e He] | (text & e & Hgen & Hparse)].
  - rewrite He. repeat split.
  - rewrite Hgen, Hparse. repeat split.
Qed.

(** C6 fails on the reply "nan".  [float] accepts it, so the [except] branch
    and its 0.7 are not taken; [max(nan, 0.0)] is nan and [min(nan, 1.0)] is
    nan, so the score stored is NaN: not a value of [0,1], not the clamp of
    anything, and not 0.7.  [nan < 0.6] is false, so the gate does not ask
    for human feedback and routes to the notification agent. *)
Theorem nan_reply_is_stored_unclamped
    (X : Externals) (cb : bool) (state : AgentState) (text : string) :
  generate_content X
    (VerifyPrompt (user_query state) (final_response state)) = Ok text ->
  float_of_str X (str_strip X text) = Ok FNaN ->
  exists state' gate,
    result (verify_response X cb state) = Ok state'
    /\ confidence_score state' = FNaN
    /\ clamp_to_unit_interval FNaN = None
    /\ in_unit_interval (confidence_score state') = false
    /\ confidence_score state' <> float_0_7
    /\ result (check_confidence state') = Ok gate
    /\ require_human_feedback gate = false
    /\ confidence_check gate = "sufficient"
    /\ next_node check_confidence_node gate = Ok (Goto notification_agent).
Proof.
  intros Hgen Hparse.
  exists (set_confidence_score FNaN state),
         (gated (set_confidence_score FNaN state)).
  rewrite verify_response_result. unfold verified_score.
  rewrite Hgen, Hparse. repeat split. discriminate.
Qed.

(** ** The progress stream *)

Lemma firstn_skipn_next {A} (k : nat) (l rest : list A) (x : A) :
  skipn k l = x :: rest ->
  firstn (S k) l = (firstn k l ++ [x])%list /\ skipn (S k) l = rest.
Proof.
  revert l. induction k as [|k IH]; intros l H.
  - cbn in H. subst l. now split.
  - destruct l as [|y l]; [discriminate H|]. cbn in H.
    destruct (IH l H) as [H1 H2]. split.
    + cbn [firstn app]. f_equal. exact H1.
    + exact H2.
Qed.

Lemma drains_apply (queue : list SSE.message_data) (last : Q)
    (already : list SSE.message_data) (o : SSE.op) (s : SSE.stream) :
  SSE.drains queue last already s ->
  SSE.drains queue last already (SSE.apply o s).
Proof.
  intros (Hact & Hlast & k & Hdel & Hq). destruct o as [msg ev n1 n2| |n1 n2].
  - unfold SSE.apply, SSE.add_message. rewrite Hact. cbn.
    repeat split; eauto.
  - unfold SSE.apply, SSE.stop. cbn. repeat split; eauto.
  - unfold SSE.apply. destruct (SSE.generator_done s); [repeat split; eauto|].
    unfold SSE.get_messages_turn.
    destruct (SSE.message_queue (SSE.tracker s)) as [|m rest] eqn:Hqueue.
    + rewrite Hact. cbn. repeat split; eauto.
      exists k. cbn. split; [assumption|congruence].
    + cbn. repeat split; auto. exists (S k).
      destruct (firstn_skipn_next k queue rest m (eq_sym Hq)) as [H1 H2].
      rewrite H1, H2, Hdel. now rewrite app_assoc.
Qed.

Lemma drains_apply_all (queue : list SSE.message_data) (last : Q)
    (already : list SSE.message_data) (ops : list SSE.op) :
  forall s,
    SSE.drains queue last already s ->
    SSE.drains queue last already (SSE.apply_all ops s).
Proof.
  unfold SSE.apply_all. induction ops as [|o ops IH]; intros s Hs; cbn.
  - exact Hs.
  - apply IH. now apply drains_apply.
Qed.

(** C10.  Once the tracker is stopped ([is_active] false), [add_message]
    leaves it unchanged; and whatever is then added, stopped or polled, the
    flag stays false, the last-activity time stays put, and the consumer is
    handed only messages that were in the queue when the tracker stopped. *)
Theorem stopped_tracker_ignores_add_message
    (t : SSE.SSEProgressTracker) (done : bool)
    (already : list SSE.message_data) (ops : list SSE.op) :
  SSE.is_active t = false ->
  (forall msg ev now1 now2, SSE.add_message msg ev now1 now2 t = t)
  /\ let s := SSE.apply_all ops {| SSE.tracker := t;
                                   SSE.generator_done := done;
                                   SSE.delivered := already |} in
     SSE.is_active (SSE.tracker s) = false
     /\ SSE.last_activity (SSE.tracker s) = SSE.last_activity t
     /\ exists k,
          SSE.delivered s = (already ++ firstn k (SSE.message_queue t))%list
          /\ SSE.message_queue (SSE.tracker s)
             = skipn k (SSE.message_queue t).
Proof.
  intros Hstopped. split.
  - intros msg ev now1 now2. unfold SSE.add_message. now rewrite Hstopped.
  - apply (drains_apply_all (SSE.message_queue t) (SSE.last_activity t)
             already ops).
    repeat split; auto. exists 0%nat. cbn. now rewrite app_nil_r.
Qed.

(** ** The keep-alive timer *)

(** [_stop_keep_alive] runs however the body of [process_query] ends. *)
Lemma stop_runs_on_every_exit_path {A} (body : M A) :
  events (try_finally body _stop_keep_alive)
  = (events body ++ [KeepAliveStopped])%list.
Proof. apply events_try_finally. Qed.

Module KeepAliveFacts.

Import KeepAlive.
Local Open Scope list_scope.

Lemma run_app (cb : bool) (sch1 sch2 : list choice) (s : system) :
  run cb (sch1 ++ sch2) s
  = match run cb sch1 s with
    | Some s' => run cb sch2 s'
    | None => None
    end.
Proof.
  revert s. induction sch1 as [|c sch1 IH]; intros s; cbn; [reflexivity|].
  destruct (step cb c s); [apply IH|reflexivity].
Qed.

(** The main thread performs the plain effects of the pipeline one by one,
    whatever the timers are doing. *)
Lemma run_main_plain (cb : bool) (evs : trace) :
  forallb plain evs = true ->
  forall (rest : code) (s : system),
    main s = main_code evs ++ rest ->
    run cb (repeat RunMain (List.length evs)) s
    = Some {| keep_alive_active := keep_alive_active s;
              keep_alive_timer := keep_alive_timer s;
              timers := timers s;
              main := rest;
              log := log s ++ evs |}.
Proof.
  induction evs as [|e evs IH]; intros Hplain rest s Hmain.
  - cbn in *. rewrite app_nil_r. destruct s; cbn in *. now subst.
  - cbn [forallb] in Hplain. apply andb_prop in Hplain.
    destruct Hplain as [He Hevs].
    assert (Hcode : main_code (e :: evs) = Log e :: main_code evs).
    { unfold main_code. cbn [flat_map]. now destruct e. }
    rewrite Hcode in Hmain. cbn [List.length repeat run step].
    rewrite Hmain. cbn [app exec set_main].
    rewrite (IH Hevs rest); cbn; [|reflexivity].
    now rewrite <- app_assoc.
Qed.

Lemma race_run (evs : trace) :
  forallb plain evs = true ->
  exists s,
    run true (race_schedule evs)
      (initial (KeepAliveStarted :: evs ++ [KeepAliveStopped])) = Some s
    /\ log s = evs ++ [KeepAliveStopped; keep_alive_event].
Proof.
  intros Hplain. unfold race_schedule, initial.
  assert (Hcode : main_code (KeepAliveStarted :: evs ++ [KeepAliveStopped])
                  = start_keep_alive
                    ++ main_code evs
                    ++ stop_keep_alive ++ [Log KeepAliveStopped]).
  { unfold main_code. cbn [flat_map main_code_of].
    rewrite flat_map_app. reflexivity. }
  rewrite Hcode. rewrite run_app.
  cbn [run step main exec start_keep_alive schedule_keep_alive app
       keep_alive_active keep_alive_timer timers set_main set_timers
       nth_error set_timer firstn skipn List.length send_keep_alive log].
  rewrite run_app.
  rewrite (run_main_plain true evs Hplain
             (stop_keep_alive ++ [Log KeepAliveStopped])) by reflexivity.
  eexists. split; [cbn; reflexivity|]. cbn. now rewrite <- app_assoc.
Qed.

Lemma keep_alive_after_stop_found (evs : trace) :
  forallb plain evs = true ->
  keep_alive_after_stop (evs ++ [KeepAliveStopped; keep_alive_event]) = true.
Proof.
  induction evs as [|e evs IH]; intros H; [reflexivity|].
  cbn [forallb] in H. apply andb_prop in H. destruct H as [He Hevs].
  cbn [app keep_alive_after_stop]. destruct e; try discriminate He;
    cbn [is_stopped]; now apply IH.
Qed.

Lemma forallb_weaken {A} (p q : A -> bool) (l : list A) :
  (forall x, p x = true -> q x = true) ->
  forallb p l = true -> forallb q l = true.
Proof.
  intros Hpq. rewrite !forallb_forall. auto.
Qed.

(** Between the start and the stop, a run performs plain effects only. *)
Lemma process_query_plain (X : Externals) (cb : bool) (query : string)
    (context : pyval) :
  exists evs,
    events (process_query X cb query context)
    = KeepAliveStarted :: evs ++ [KeepAliveStopped]
    /\ forallb plain evs = true.
Proof.
  rewrite process_query_run. cbn [events snd]. eexists. split; [reflexivity|].
  rewrite graph_invoke_run. cbn [events snd].
  destruct (classify_state_plan X (initial_state query context))
    as (_ & names & Hplan & _).
  repeat rewrite forallb_app.
  rewrite (forallb_weaken chatter plain _ ltac:(now intros [])
             (classify_intent_chatter X cb _)).
  rewrite (forallb_weaken agent_work plain _ ltac:(now intros [])
             (stage_work X cb _ names Hplan)).
  rewrite (forallb_weaken chatter plain _ ltac:(now intros [])
             (make_decision_chatter X cb _)).
  rewrite (forallb_weaken chatter plain _ ltac:(now intros [])
             (verify_response_chatter X cb _)).
  rewrite (forallb_weaken database_work plain _ ltac:(now intros [])
             (save_query_database_work X _ _ _)).
  destruct (require_human_feedback _); [reflexivity|].
  now rewrite (forallb_weaken notification_work plain _ ltac:(now intros [])
                 (send_notifications_work X cb _)).
Qed.

End KeepAliveFacts.

(** C8 fails on the code.  For every run with a progress callback there is
    an interleaving of the main thread with the first timer's thread in which
    a "keep_alive" event is emitted after [_stop_keep_alive] has returned: the
    timer's function tests [keep_alive_active] before the stop and calls the
    callback after it. *)
Theorem keep_alive_can_follow_the_stop
    (X : Externals) (query : string) (context : pyval) :
  exists schedule s,
    KeepAlive.run true schedule
      (KeepAlive.initial (events (process_query X true query context)))
    = Some s
    /\ KeepAlive.keep_alive_after_stop (KeepAlive.log s) = true.
Proof.
  destruct (KeepAliveFacts.process_query_plain X true query context)
    as (evs & -> & Hplain).
  destruct (KeepAliveFacts.race_run evs Hplain) as (s & Hrun & Hlog).
  exists (KeepAlive.race_schedule evs), s. split; [exact Hrun|].
  rewrite Hlog. now apply KeepAliveFacts.keep_alive_after_stop_found.
Qed.

(** A timer whose function begins once the flag is down emits nothing and
    arms no successor. *)
Lemma late_timer_is_silent (cb : bool) (n : nat) (s : KeepAlive.system) :
  KeepAlive.keep_alive_active s = false ->
  nth_error (KeepAlive.timers s) n = Some KeepAlive.Waiting ->
  exists s',
    KeepAlive.run cb [KeepAlive.Fire n; KeepAlive.RunTimer n] s = Some s'
    /\ KeepAlive.log s' = KeepAlive.log s
    /\ nth_error (KeepAlive.timers s') n = Some (KeepAlive.Running [])
    /\ List.length (KeepAlive.timers s') = List.length (KeepAlive.timers s).
Proof.
  intros Hdown Hwait.
  assert (Hn : (n < List.length (KeepAlive.timers s))%nat).
  { apply nth_error_Some. congruence. }
  assert (Hset : forall t l, (n < List.length l)%nat ->
            nth_error (KeepAlive.set_timer n t l) n = Some t
            /\ List.length (KeepAlive.set_timer n t l) = List.length l).
  { intros t l Hl. unfold KeepAlive.set_timer. split.
    - rewrite nth_error_app2; rewrite length_firstn, Nat.min_l by lia; [|lia].
      now rewrite Nat.sub_diag.
    - rewrite length_app, length_firstn, Nat.min_l by lia.
      cbn [List.length]. rewrite length_skipn. lia. }
  cbn [KeepAlive.run KeepAlive.step]. rewrite Hwait.
  cbn [KeepAlive.set_timers KeepAlive.timers].
  destruct (Hset (KeepAlive.Running (KeepAlive.send_keep_alive cb))
              (KeepAlive.timers s) Hn) as [H1 H1len].
  rewrite H1. unfold KeepAlive.send_keep_alive at 1.
  cbn [KeepAlive.exec KeepAlive.keep_alive_active KeepAlive.set_timers].
  rewrite Hdown.
  eexists. split; [reflexivity|].
  cbn [KeepAlive.set_timers KeepAlive.timers KeepAlive.log].
  split; [reflexivity|].
  destruct (Hset (KeepAlive.Running [])
              (KeepAlive.set_timer n
                 (KeepAlive.Running (KeepAlive.send_keep_alive cb))
                 (KeepAlive.timers s))) as [H2 H2len]; [lia|].
  split; [exact H2|lia].
Qed.


(** C5, witness: a session that has collected nothing. *)
Lemma make_decision_empty_results_apology_witness :
  result (make_decision pest_fails_world true
            (initial_state "bugs?" farm_context))
  = Ok (set_final_response the_final_apology
          (initial_state "bugs?" farm_context))
  /\ final_response
       (set_final_response the_final_apology
          (initial_state "bugs?" farm_context))
     = the_final_apology
  /\ forall p,
       ~ In (GenerateContent p)
           (events (make_decision pest_fails_world true
                      (initial_state "bugs?" farm_context))).
Proof.
  apply (make_decision_empty_results_apology pest_fails_world true
           (initial_state "bugs?" farm_context)).
  reflexivity.
Defined.

(** C6, witness: the verifier answers "nan". *)
Lemma nan_reply_is_stored_unclamped_witness :
  exists state' gate,
    result (verify_response nan_verifier_world true
              (initial_state "rain?" farm_context)) = Ok state'
    /\ confidence_score state' = FNaN
    /\ clamp_to_unit_interval FNaN = None
    /\ in_unit_interval (confidence_score state') = false
    /\ confidence_score state' <> float_0_7
    /\ result (check_confidence state') = Ok gate
    /\ require_human_feedback gate = false
    /\ confidence_check gate = "sufficient"
    /\ next_node check_confidence_node gate = Ok (Goto notification_agent).
Proof.
  apply (nan_reply_is_stored_unclamped nan_verifier_world true
           (initial_state "rain?" farm_context) "nan");
    reflexivity.
Defined.

(** The same reply in a whole run: the run ends with the score NaN, no
    request for human feedback, and the notification agent called. *)
Lemma nan_reply_reaches_the_notification_agent :
  exists final,
    result (process_query nan_verifier_world true "rain?" farm_context)
    = Ok final
    /\ confidence_score final = FNaN
    /\ require_human_feedback final = false
    /\ In (ProcessNotifications "answer" farm_context)
         (events (process_query nan_verifier_world true "rain?"
                    farm_context)).
Proof.
  eexists. split; [vm_compute; reflexivity|].
  split; [reflexivity|]. split; [reflexivity|].
  vm_compute. tauto.
Qed.

(** What holds of C6, on two replies: 1.5 is stored as 1.0, and a verifier
    that is down leaves 0.7. *)
Lemma verifier_score_examples :
  (exists state',
     result (verify_response generous_verifier_world true
               (initial_state "rain?" farm_context)) = Ok state'
     /\ confidence_score state' = float_1_0)
  /\ (exists state',
        result (verify_response verifier_down_world true
                  (initial_state "rain?" farm_context)) = Ok state'
        /\ confidence_score state' = float_0_7).
Proof.
  split; eexists; split; vm_compute; reflexivity.
Qed.

(** C7 fails as stated.  On the reply whose [agents_needed] is weather,
    drone, weather and whose [confidence] is 1.5, the stored plan is that
    very list, neither de-duplicated nor filtered; the label is "multiple",
    although exactly one category, weather, survives de-duplication and
    filtering; and the stored confidence is 1.5, outside [0,1], where the
    clamp is 1.0. *)
Lemma classify_intent_neither_filters_nor_clamps :
  result (classify_intent overconfident_world true
            (initial_state "rain?" farm_context))
  = Ok (classified (PStr "multiple")
          (PList [PStr "weather"; PStr "drone"; PStr "weather"])
          (FFin (3 # 2)) (initial_state "rain?" farm_context))
  /\ spec_agents_to_run ["weather"; "drone"; "weather"] = ["weather"]
  /\ spec_intent_label (spec_agents_to_run ["weather"; "drone"; "weather"])
     = "weather"
  /\ PList [PStr "weather"; PStr "drone"; PStr "weather"]
     <> PList (map PStr (spec_agents_to_run ["weather"; "drone"; "weather"]))
  /\ PStr "multiple"
     <> PStr (spec_intent_label
                (spec_agents_to_run ["weather"; "drone"; "weather"]))
  /\ clamp_to_unit_interval (FFin (3 # 2)) = Some float_1_0
  /\ in_unit_interval (FFin (3 # 2)) = false
  /\ FFin (3 # 2) <> float_1_0.
Proof.
  repeat split; try (vm_compute; reflexivity); vm_compute; discriminate.
Qed.

(** C7, witness: the same reply. *)
Lemma classify_intent_on_valid_json_witness :
  (forall state,
     user_query state = "rain?" ->
     exists state',
       result (classify_intent overconfident_world true state) = Ok state'
       /\ agents_to_run state'
          = PList (map PStr ["weather"; "drone"; "weather"])
       /\ intent_classification state' = PStr "multiple"
       /\ confidence_score state' = FFin (3 # 2)
       /\ (dict_lookup "confidence"
             [("primary_intent", PStr "multiple");
              ("agents_needed",
               PList (map PStr ["weather"; "drone"; "weather"]));
              ("confidence", PFloat (FFin (3 # 2)))] = None ->
           confidence_score state' = float_0_5))
  /\ exists final,
       result (process_query overconfident_world true "rain?" farm_context)
       = Ok final
       /\ agents_to_run final
          = PList (map PStr ["weather"; "drone"; "weather"])
       /\ intent_classification final = PStr "multiple"
       /\ agent_calls (events (process_query overconfident_world true "rain?"
                                 farm_context))
          = filter known_agent ["weather"; "drone"; "weather"]
       /\ (forall k,
             In k (dict_keys (agent_responses final))
             <-> In k ["weather"; "drone"; "weather"] /\ known_agent k = true)
       /\ NoDup (dict_keys (agent_responses final)).
Proof.
  apply (classify_intent_on_valid_json overconfident_world true "rain?"
           farm_context "{...}"
           [("primary_intent", PStr "multiple");
            ("agents_needed", PList (map PStr ["weather"; "drone"; "weather"]));
            ("confidence", PFloat (FFin (3 # 2)))]
           ["weather"; "drone"; "weather"] (FFin (3 # 2)));
    reflexivity.
Defined.

(** C9 fails as stated.  The reply is valid JSON and its [agents_needed] is
    the empty list, but its [confidence] is the string "high": [float] raises
    inside the [try] block, the fallback plan replaces the empty one, and the
    weather and soil agents run; the final answer is the model's, not the
    apology. *)
Lemma valid_json_with_unusable_confidence_falls_back :
  json_loads vague_confidence_world "{...}"
  = Ok (PDict [("primary_intent", PStr "multiple");
               ("agents_needed", PList []);
               ("confidence", PStr "high")])
  /\ agent_calls
       (events (process_query vague_confidence_world true "hello" farm_context))
     = ["weather"; "soil"]
  /\ exists final,
       result (process_query vague_confidence_world true "hello" farm_context)
       = Ok final
       /\ agents_to_run final = PList [PStr "weather"; PStr "soil"]
       /\ dict_keys (agent_responses final) = ["weather"; "soil"]
       /\ final_response final = "answer"
       /\ final_response final <> the_final_apology.
Proof.
  split; [reflexivity|]. split; [vm_compute; reflexivity|].
  eexists. split; [vm_compute; reflexivity|].
  repeat split; try reflexivity. vm_compute. discriminate.
Qed.

(** C9, witness: the classifier names no agent. *)
Lemma empty_plan_degrades_to_the_apology_witness :
  exists final,
    result (process_query no_agent_world true "hello" farm_context) = Ok final
    /\ intent_classification final = PStr "multiple"
    /\ agent_calls (events (process_query no_agent_world true "hello"
                              farm_context)) = []
    /\ agent_responses final = []
    /\ final_response final = the_final_apology.
Proof.
  apply (empty_plan_degrades_to_the_apology no_agent_world true "hello"
           farm_context "{...}"
           [("primary_intent", PStr "multiple");
            ("agents_needed", PList []);
            ("confidence", PFloat (FFin (3 # 10)))] (FFin (3 # 10)));
    reflexivity.
Defined.

(** C10, witness: a heartbeat and a late message arrive after the stop. *)
Lemma stopped_tracker_ignores_add_message_witness :
  (forall msg ev now1 now2,
     SSE.add_message msg ev now1 now2 stopped_tracker = stopped_tracker)
  /\ let s := SSE.apply_all
                [SSE.Add "Processing..." "keep_alive" 13 13; SSE.Next 14 14;
                 SSE.Add "late" "progress" 15 15; SSE.Next 16 16]
                {| SSE.tracker := stopped_tracker;
                   SSE.generator_done := false;
                   SSE.delivered := [] |} in
     SSE.is_active (SSE.tracker s) = false
     /\ SSE.last_activity (SSE.tracker s) = SSE.last_activity stopped_tracker
     /\ exists k,
          SSE.delivered s
          = ([] ++ firstn k (SSE.message_queue stopped_tracker))%list
          /\ SSE.message_queue (SSE.tracker s)
             = skipn k (SSE.message_queue stopped_tracker).
Proof.
  apply (stopped_tracker_ignores_add_message stopped_tracker false []
           [SSE.Add "Processing..." "keep_alive" 13 13; SSE.Next 14 14;
            SSE.Add "late" "progress" 15 15; SSE.Next 16 16]).
  reflexivity.
Defined.

(** ** The progress callback *)













(** ** The edges of the graph *)

(** X1.  No edge of the workflow can fail: after every node and in every
    state the next step is defined (the router's answer is always a key of
    the path map, whatever the intent label holds).  The run ends only after
    the notification node, or at the confidence gate when human feedback is
    required. *)
Theorem conditional_edges_always_resolve (n : node) (state : AgentState) :
  exists t,
    next_node n state = Ok t
    /\ (t = END <->
        n = notification_agent
        \/ (n = check_confidence_node /\ require_human_feedback state = true)).
Proof.
  destruct n;
    try (eexists; split; [reflexivity|]; split;
         [discriminate | intros [H|[H _]]; discriminate H]).
  - exists (Goto (stage_node state)). split; [apply intent_path_map_route|].
    split; [discriminate | intros [H|[H _]]; discriminate H].
  - exists END. split; [reflexivity|]. split; [now left | reflexivity].
  - rewrite next_node_gate. eexists. split; [reflexivity|].
    destruct (require_human_feedback state); split.
    + intros _. right. now split.
    + reflexivity.
    + discriminate.
    + intros [H|[_ H]]; discriminate H.
Qed.

(** ** The step limit of the graph *)




(** ** Saving the query *)









(** ** What the multi-agent runner announces *)

Lemma progress_count_app (k : string) (t1 t2 : trace) :
  progress_count k (t1 ++ t2)%list
  = (progress_count k t1 + progress_count k t2)%nat.
Proof. unfold progress_count. now rewrite filter_app, length_app. Qed.


Lemma run_agent_runner_events (X : Externals) (cb : bool) (a : agent)
    (s : AgentState) (k : string) :
  runner_event_type k = true ->
  progress_count k (events (run_agent X cb a s)) = 0%nat.
Proof.
  intros Hk.
  assert (Hcases : k = "agent_running" \/ k = "agent_complete"
                   \/ k = "agent_warning").
  { unfold runner_event_type in Hk. cbn [existsb] in Hk.
    destruct (String.eqb_spec k "agent_running"); [now left|].
    destruct (String.eqb_spec k "agent_complete"); [now right; left|].
    destruct (String.eqb_spec k "agent_warning"); [now right; right|].
    discriminate Hk. }
  unfold run_agent. msteps.
  destruct (agent_process X _ _ _) as [r|e]; msteps.
  - destruct (json_dumps_check r) as [[]|e]; msteps;
      rewrite ?agent_error_response_dumps; msteps;
      destruct Hcases as [ -> | [ -> | -> ] ]; destruct a, cb; reflexivity.
  - rewrite agent_error_response_dumps. msteps.
    destruct Hcases as [ -> | [ -> | -> ] ]; destruct a, cb; reflexivity.
Qed.

Lemma run_one_agent_announces (X : Externals) (state : AgentState)
    (total i : nat) (name : string) (shared responses : pydict) :
  let t := events (run_one_agent X true state total i (PStr name) shared
                     responses) in
  let n := if known_agent name then 1%nat else 0%nat in
  progress_count "agent_running" t = n
  /\ progress_count "agent_complete" t = n
  /\ progress_count "agent_warning" t = 0%nat.
Proof.
  unfold run_one_agent, known_agent. cbn [py_hashable negb].
  destruct (agent_of_key name) as [a|] eqn:Hk.
  - rewrite !(agent_map_Some X _ name a Hk). msteps.
    rewrite !run_agent_result. msteps. cbn [set_response set_agent_responses
      agent_responses user_query user_context].
    rewrite dict_lookup_set_same. msteps.
    destruct (response_summary _) as [[]|e]; msteps;
      repeat rewrite ?progress_count_app;
      rewrite !run_agent_runner_events by reflexivity;
      repeat split; reflexivity.
  - rewrite !(agent_map_None X _ name Hk). msteps. repeat split; reflexivity.
Qed.

Lemma run_agents_loop_announces (X : Externals) (state : AgentState)
    (total : nat) (names : list string) :
  forall (i : nat) (shared responses : pydict),
    let t := events (run_agents_loop X true state total i (map PStr names)
                       shared responses) in
    let n := List.length (filter known_agent names) in
    progress_count "agent_running" t = n
    /\ progress_count "agent_complete" t = n
    /\ progress_count "agent_warning" t = 0%nat.
Proof.
  induction names as [|name names IH]; intros i shared responses;
    cbn [run_agents_loop map].
  - repeat split; reflexivity.
  - cbv zeta. msteps. rewrite !run_one_agent_result. cbn [fst snd].
    rewrite !progress_count_app.
    destruct (run_one_agent_announces X state total i name shared responses)
      as (-> & -> & ->).
    match goal with
    | |- context [run_agents_loop X true state total (S i) _ ?sh ?rs] =>
        destruct (IH (S i) sh rs) as (-> & -> & ->)
    end.
    cbn [filter]. destruct (known_agent name); repeat split; reflexivity.
Qed.

(** X5.  In [run_multiple_agents] every known agent of the plan is called
    once per occurrence, announced once as running and once as complete:
    the "completed successfully" event is sent even for an agent that
    raised, since its method has stored an error response.  The
    "completed with warnings" event is never sent. *)
Theorem failed_agents_are_announced_complete
    (X : Externals) (state : AgentState) (names : list string) :
  py_iter (agents_to_run state) = Ok (map PStr names) ->
  let t := events (run_multiple_agents X true state) in
  let n := List.length (filter known_agent names) in
  agent_calls t = filter known_agent names
  /\ progress_count "agent_running" t = n
  /\ progress_count "agent_complete" t = n
  /\ progress_count "agent_warning" t = 0%nat.
Proof.
  intros Hplan t n. split; [now apply run_multiple_agents_calls|].
  subst t n. unfold run_multiple_agents. msteps.
  rewrite (py_iter_len _ _ Hplan), Hplan. msteps.
  rewrite !run_agents_loop_result. msteps.
  rewrite !progress_count_app.
  match goal with
  | |- context [run_agents_loop X true state ?total 1 _ ?sh ?rs] =>
      destruct (run_agents_loop_announces X state total names 1 sh rs)
        as (Hrun & Hdone & Hwarn)
  end.
  cbv zeta in Hrun, Hdone, Hwarn. rewrite Hrun, Hdone, Hwarn.
  repeat split; cbn; lia.
Qed.


(** X5, witness: a plan of three in which the pest agent raises and one
    name is unknown. *)
Lemma failed_agents_are_announced_complete_witness :
  agent_calls
    (events (run_multiple_agents pest_fails_world true
               (set_agents_to_run
                  (PList [PStr "weather"; PStr "drone"; PStr "pest"])
                  (initial_state "bugs?" farm_context))))
  = ["weather"; "pest"]
  /\ progress_count "agent_running"
       (events (run_multiple_agents pest_fails_world true
                  (set_agents_to_run
                     (PList [PStr "weather"; PStr "drone"; PStr "pest"])
                     (initial_state "bugs?" farm_context)))) = 2%nat
  /\ progress_count "agent_complete"
       (events (run_multiple_agents pest_fails_world true
                  (set_agents_to_run
                     (PList [PStr "weather"; PStr "drone"; PStr "pest"])
                     (initial_state "bugs?" farm_context)))) = 2%nat
  /\ progress_count "agent_warning"
       (events (run_multiple_agents pest_fails_world true
                  (set_agents_to_run
                     (PList [PStr "weather"; PStr "drone"; PStr "pest"])
                     (initial_state "bugs?" farm_context)))) = 0%nat.
Proof.
  apply (failed_agents_are_announced_complete pest_fails_world
           (set_agents_to_run
              (PList [PStr "weather"; PStr "drone"; PStr "pest"])
              (initial_state "bugs?" farm_context))
           ["weather"; "drone"; "pest"]).
  reflexivity.
Defined.

(** ** The order of the stream *)




(** X8.  The timeout event is sent only to a consumer who has waited: a turn
    of [get_messages] yields it exactly when the queue is empty, the tracker
    is active and more than 60 seconds have passed since the last
    [add_message]; it then deactivates the tracker, so that every later
    [add_message] is ignored. *)
Theorem timeout_needs_sixty_idle_seconds
    (now1 now2 : Q) (t : SSE.SSEProgressTracker) :
  ((exists m, snd (SSE.get_messages_turn now1 now2 t) = SSE.Timeout m)
   <-> (SSE.message_queue t = []
        /\ SSE.is_active t = true
        /\ Qltb 60 (now1 - SSE.last_activity t) = true))
  /\ (forall t' m,
        SSE.get_messages_turn now1 now2 t = (t', SSE.Timeout m) ->
        m = SSE.timeout_message now2
        /\ SSE.is_active t' = false
        /\ forall msg ev a b, SSE.add_message msg ev a b t' = t').
Proof.
  unfold SSE.get_messages_turn. split; [split|].
  - intros [m Hm]. destruct (SSE.message_queue t); [|discriminate Hm].
    destruct (SSE.is_active t); [|discriminate Hm].
    destruct (Qltb 60 _); [now repeat split|discriminate Hm].
  - intros (-> & -> & ->). now eexists.
  - intros t' m Hturn. destruct (SSE.message_queue t); [|discriminate Hturn].
    destruct (SSE.is_active t); [|discriminate Hturn].
    destruct (Qltb 60 _); [|discriminate Hturn].
    injection Hturn as <- <-. repeat split.
Qed.

